(** * Decorated-controller dispatch (tg/controllers/decoratedcontroller.py)

    A shallow embedding of [DecoratedController]: the validation runner
    [_perform_validate], the error classifier [_process_validation_errors],
    the renderer [_render_response], the security checker [_check_security]
    and the orchestrator [_call].

    Python objects that the module mutates (the validation status of the
    request, the response, the testing variables) live in a [world] that is
    threaded through a small state-and-exception monad.  Calls into the
    collaborators (hooks, crank, the validation intents, the controller
    caller, the template renderer, flash, abort) are recorded, in order, in
    the world's [log], so that "is called with" and "is not called" are
    statements about that log.  A hook notification is such a record: what
    the callbacks registered on a hook do to the arguments they are handed,
    and an exception they raise, are outside the embedding. *)

From Stdlib Require Import ZArith String Ascii List Bool Lia.
From stdpp Require Import gmap strings list fin_maps.

Local Open Scope string_scope.
Local Open Scope list_scope.

(** ** Python strings

    A [string] is read as a sequence of code points below 256. *)

Module Str.

(** [str.isspace] on one character, for the code points below 256:
    TAB..CR, FS..US, SPACE, NEL and NBSP. *)
Definition isspace (c : ascii) : bool :=
  let n := nat_of_ascii c in
  (Nat.leb 9 n && Nat.leb n 13) || (Nat.leb 28 n && Nat.leb n 32)
  || Nat.eqb n 133 || Nat.eqb n 160.

(** [s.lstrip()] *)
Fixpoint lstrip (s : string) : string :=
  match s with
  | EmptyString => EmptyString
  | String c s' => if isspace c then lstrip s' else s
  end.

(** [s.rstrip()] *)
Fixpoint rstrip (s : string) : string :=
  match s with
  | EmptyString => EmptyString
  | String c s' =>
      match rstrip s' with
      | EmptyString => if isspace c then EmptyString else String c EmptyString
      | r => String c r
      end
  end.

(** [s.strip()], which is what [operator.methodcaller('strip')] calls. *)
Definition strip (s : string) : string := rstrip (lstrip s).

(** [s.split(sep)] for a one-character separator: every occurrence
    splits, and the result is never empty. *)
Fixpoint split (sep : ascii) (s : string) : list string :=
  match s with
  | EmptyString => [EmptyString]
  | String c s' =>
      if Ascii.eqb c sep then EmptyString :: split sep s'
      else match split sep s' with
           | h :: t => String c h :: t
           | [] => [String c EmptyString]
           end
  end.

(** [s.split(sep, 1)]: at most one split, at the first occurrence. *)
Fixpoint split_max1 (sep : ascii) (s : string) : list string :=
  match s with
  | EmptyString => [EmptyString]
  | String c s' =>
      if Ascii.eqb c sep then [EmptyString; s']
      else match split_max1 sep s' with
           | h :: t => String c h :: t
           | [] => [String c EmptyString]
           end
  end.

(** [s.startswith(p)] *)
Definition startswith (p s : string) : bool := String.prefix p s.

(** [sub in s] *)
Fixpoint contains (sub s : string) : bool :=
  String.prefix sub s ||
  match s with
  | EmptyString => false
  | String _ s' => contains sub s'
  end.

(** [x in xs] for a tuple of strings. *)
Definition in_tuple (x : string) (xs : list string) : bool :=
  existsb (String.eqb x) xs.

End Str.

(** [strip_string = operator.methodcaller('strip')] *)
Definition strip_string (s : string) : string := Str.strip s.

Definition LF : ascii := Ascii.ascii_of_nat 10.
Definition COLON : ascii := Ascii.ascii_of_nat 58.

(** A line feed inside a literal. *)
Definition nl : string := String LF EmptyString.

(** ** Python values *)

#[warnings="-register-all"]
Inductive pyobj : Type :=
| PyNone
| PyInt (z : Z)
| PyStr (s : string)
| PyList (l : list pyobj)
| PyDict (d : gmap string pyobj).

(** [isinstance(x, dict)] *)
Definition is_dict (x : pyobj) : bool :=
  match x with PyDict _ => true | _ => false end.

(** Keyword parameters of a request, and the unmatched path segments. *)
Abbreviation params := (gmap string pyobj).
Abbreviation remainder := (list string).

(** ** Callables

    A controller method is a function of a controller class, possibly bound
    to an instance.  Functions and instances are named; the decoration
    hangs on the function, and a bound method shows its function's. *)

Record callable : Type := Callable {
  im_func_name : string;       (* the underlying function *)
  bound_self : option string   (* [__self__], [None] for a plain function *)
}.

(** [tg._compat.im_self] *)
Definition im_self (f : callable) : option string := bound_self f.

(** [tg._compat.default_im_func]: the underlying function of a method, and
    a plain function itself. *)
Definition default_im_func (f : callable) : callable :=
  Callable (im_func_name f) None.

(** What [_call] finally invokes: the action itself, or
    [partial(error_handler, instance)]. *)
Inductive bound_callable : Type :=
| Action (action : callable)
| Partial (error_handler : callable) (instance : option string).

(** ** Validation failures

    The three shapes [_process_validation_errors] tells apart.  A structured
    failure is taken with the dict that the specification gives it; one whose
    [error_dict] is [None] is outside the embedding. *)

#[warnings="-register-all"]
Inductive tw2widget : Type :=
  Tw2 (compound_key : string) (error_msg : pyobj) (value : pyobj)
      (children : list tw2widget).

Definition tw2_compound_key (w : tw2widget) : string :=
  match w with Tw2 k _ _ _ => k end.
Definition tw2_error_msg (w : tw2widget) : pyobj :=
  match w with Tw2 _ m _ _ => m end.
Definition tw2_value (w : tw2widget) : pyobj :=
  match w with Tw2 _ _ v _ => v end.

Inductive validation_error : Type :=
| Tw2ValidationError (widget_child : tw2widget)
    (* [exception.widget.child] *)
| TGValidationError (error_dict : gmap string pyobj) (value : pyobj)
| Invalid (str : string) (value : option pyobj).
    (* any other member of [validation_errors]: [__str__()] and the
       optional [value] attribute *)

Inductive exn : Type :=
| ValidationExn (inv : validation_error)
| HTTPException (code : Z) (comment : string)
| NotAuthorizedError (msg : string)
| OtherException (name : string).

(** ** Per-request state *)

(** Modelled from the spec: [tg.validation._ValidationStatus] is not among
    the sources.  The spec describes it as a per-request mutable record of
    the current validation intent, the field to error-message map, the
    value map, the selected error-handler method and the flag for chained
    re-validation; this module also stores the exception on it.  A fresh
    one has empty maps, no handler and no chaining. *)
Record ValidationStatus : Type := {
  intent : option string;
  errors : gmap string pyobj;
  values : pyobj;
  exception : option validation_error;
  error_handler : option callable;
  chain_validation : bool
}.

Definition new_ValidationStatus : ValidationStatus :=
  {| intent := None; errors := ∅; values := PyDict ∅; exception := None;
     error_handler := None; chain_validation := false |}.

(** The response: its header table and status.  [content_type] is a view of
    the ['Content-Type'] header. *)
Record Response : Type := {
  headers : gmap string string;
  status : option Z
}.

(** [resp.content_type]: the header without its parameters, [None] when the
    header is missing or empty. *)
Definition content_type (resp : Response) : option string :=
  match headers resp !! "Content-Type" with
  | None | Some EmptyString => None
  | Some header => head (Str.split_max1 (Ascii.ascii_of_nat 59) header)
  end.

(** [resp.headers[k] = v] *)
Definition set_header (k v : string) (resp : Response) : Response :=
  {| headers := <[k := v]> (headers resp); status := status resp |}.

(** [resp.content_type = v] for a [v] that carries its own parameters, the
    only form this module assigns: the header becomes [v]. *)
Definition set_content_type (v : string) (resp : Response) : Response :=
  set_header "Content-Type" v resp.

Definition set_status (code : Z) (resp : Response) : Response :=
  {| headers := headers resp; status := Some code |}.

(** What [_render_response] returns. *)
Record render_result : Type := {
  r_response : pyobj;
  r_content_type : option string;
  r_engine_name : option string;
  r_template_name : option string
}.

(** Arguments of a hook notification. *)
Inductive hook_args : Type :=
| ArgsParams (r : remainder) (p : params)
| ArgsOutput (r : remainder) (p : params) (output : pyobj)
| ArgsResponse (response : render_result).

(** A call into a collaborator. *)
Inductive event : Type :=
| Notify (hook : string) (args : hook_args) (controller : callable)
| GetParamsWithArgspec (f : callable) (p : params) (r : remainder)
| FlattenArguments (f : callable) (p : params) (r : remainder)
| IntentCheck (validation_intent : string) (controller : callable) (p : params)
| ControllerCaller (f : bound_callable) (r : remainder) (p : params)
| TgRender (template_vars : params) (template_engine template_name : option string)
    (render_params : params)
| FailedAuthorization (reason : string)
| Flash (message : string) (severity : string)
| Abort (code : Z) (comment : string).

Record world : Type := {
  validation : ValidationStatus;     (* [request.validation] *)
  args_params : params;              (* [request.args_params] *)
  environ : gmap string pyobj;       (* [request.environ] *)
  response : Response;
  log : list event
}.

(** ** The monad: state, exceptions, and fuel for the one unbounded loop *)

Inductive outcome (A : Type) : Type :=
| Returns (a : A)
| Raises (e : exn)
| OutOfFuel.
Arguments Returns {A} a.
Arguments Raises {A} e.
Arguments OutOfFuel {A}.

Definition M (A : Type) : Type := world -> outcome A * world.

#[global] Instance M_ret : MRet M := fun A a w => (Returns a, w).

#[global] Instance M_bind : MBind M := fun A B k m w =>
  match m w with
  | (Returns a, w') => k a w'
  | (Raises e, w') => (Raises e, w')
  | (OutOfFuel, w') => (OutOfFuel, w')
  end.

Definition raise {A} (e : exn) : M A := fun w => (Raises e, w).
Definition get : M world := fun w => (Returns w, w).
Definition modify (f : world -> world) : M unit := fun w => (Returns tt, f w).

(** [try: body except validation_errors as inv: handler else: orelse] *)
Definition try_validation {A B} (body : M A) (handler : validation_error -> M B)
    (orelse : A -> M B) : M B := fun w =>
  match body w with
  | (Returns a, w') => orelse a w'
  | (Raises (ValidationExn inv), w') => handler inv w'
  | (Raises e, w') => (Raises e, w')
  | (OutOfFuel, w') => (OutOfFuel, w')
  end.

Definition with_validation (f : ValidationStatus -> ValidationStatus) (w : world) : world :=
  {| validation := f (validation w); args_params := args_params w;
     environ := environ w; response := response w; log := log w |}.
Definition with_args_params (p : params) (w : world) : world :=
  {| validation := validation w; args_params := p;
     environ := environ w; response := response w; log := log w |}.
Definition with_environ (f : gmap string pyobj -> gmap string pyobj) (w : world) : world :=
  {| validation := validation w; args_params := args_params w;
     environ := f (environ w); response := response w; log := log w |}.
Definition with_response (f : Response -> Response) (w : world) : world :=
  {| validation := validation w; args_params := args_params w;
     environ := environ w; response := f (response w); log := log w |}.

(** Record a call into a collaborator. *)
Definition logged (e : event) (w : world) : world :=
  {| validation := validation w; args_params := args_params w;
     environ := environ w; response := response w; log := log w ++ [e] |}.
Definition emit (e : event) : M unit := modify (logged e).

(** ** Collaborators

    Everything the module calls but does not define.  The decoration is
    looked up by function name; a validation intent is named, and its
    [check] may rewrite the validation status of the request (that is where
    an error handler and the chaining flag come from) besides returning the
    cleaned parameters or raising. *)

Record Decoration : Type := {
  validations : list string;
  controller_caller :
    bound_callable -> remainder -> params -> Response -> outcome pyobj * Response;
  lookup_template_engine :
    world -> option string * option string * option string * list string * params
}.

Record Collaborators : Type := {
  decoration : string -> Decoration;
  check : string -> callable -> params -> ValidationStatus ->
          outcome params * ValidationStatus;
  get_params_with_argspec : callable -> params -> remainder -> params;
  flatten_arguments : callable -> params -> remainder -> remainder * params;
  url2pathname : string -> string;
  _navigate_tw2form_children : tw2widget -> list tw2widget;
  tg_render : params -> option string -> option string -> params -> string;
  not_anonymous_is_met : gmap string pyobj -> bool
}.

(** ** The error map of a text failure *)

(** One pass of the loop over [error_list]:
    [field_value = list(map(strip_string, error.split(':', 1)))], then the
    assignment into [validation_status.errors]. *)
Definition record_error (errs : gmap string pyobj) (error : string) : gmap string pyobj :=
  let field_value := map strip_string (Str.split_max1 COLON error) in
  match field_value with
  | [msg] => <["_the_form" := PyStr msg]> errs
  | field :: msg :: _ => <[field := PyStr msg]> errs
  | [] => errs
  end.

(** [dict(pairs)]: a later pair overwrites an earlier one. *)
Definition dict_of {V} (pairs : list (string * V)) : gmap string V :=
  foldl (fun d kv => <[kv.1 := kv.2]> d) ∅ pairs.

Section Dispatch.

Variable tg : Collaborators.

Definition decoration_of (f : callable) : Decoration :=
  decoration tg (im_func_name f).

(** *** [_perform_validate] *)

(** [validation_intent.check(controller, validated_params)] *)
Definition call_check (validation_intent : string) (controller : callable)
    (validated_params : params) : M params := fun w =>
  let w1 := (emit (IntentCheck validation_intent controller validated_params) w).2 in
  let (r, st) := check tg validation_intent controller validated_params (validation w1) in
  (r, with_validation (fun _ => st) w1).

Definition set_intent (i : string) (st : ValidationStatus) : ValidationStatus :=
  {| intent := Some i; errors := errors st; values := values st;
     exception := exception st; error_handler := error_handler st;
     chain_validation := chain_validation st |}.

(** The [for validation_intent in validations] loop. *)
Fixpoint validate_loop (controller : callable) (validations : list string)
    (validated_params : params) : M params :=
  match validations with
  | [] => mret validated_params
  | validation_intent :: rest =>
      modify (with_validation (set_intent validation_intent));;
      validated_params ← call_check validation_intent controller validated_params;
      validate_loop controller rest validated_params
  end.

Definition _perform_validate (controller : callable) (p : params) : M params :=
  match validations (decoration_of controller) with
  | [] => mret p
  | validations => validate_loop controller validations p
  end.

(** *** [_process_validation_errors] *)

Definition set_exception (e : validation_error) (st : ValidationStatus) : ValidationStatus :=
  {| intent := intent st; errors := errors st; values := values st;
     exception := Some e; error_handler := error_handler st;
     chain_validation := chain_validation st |}.

Definition set_errors (errs : gmap string pyobj) (st : ValidationStatus) : ValidationStatus :=
  {| intent := intent st; errors := errs; values := values st;
     exception := exception st; error_handler := error_handler st;
     chain_validation := chain_validation st |}.

Definition set_values (v : pyobj) (st : ValidationStatus) : ValidationStatus :=
  {| intent := intent st; errors := errors st; values := v;
     exception := exception st; error_handler := error_handler st;
     chain_validation := chain_validation st |}.

(** The three branches on the shape of the exception. *)
Definition populate_status (exception : validation_error) (st : ValidationStatus)
    : ValidationStatus :=
  match exception with
  | Tw2ValidationError widget_child =>
      let widget_children := _navigate_tw2form_children tg widget_child in
      let errs := dict_of (map (fun child => (tw2_compound_key child, tw2_error_msg child))
                               widget_children) in
      set_values (tw2_value widget_child) (set_errors errs st)
  | TGValidationError error_dict value =>
      set_values value (set_errors error_dict st)
  | Invalid str value =>
      let error_list := Str.split LF str in
      set_values (default (PyDict ∅) value)
                 (set_errors (foldl record_error (errors st) error_list) st)
  end.

Definition _process_validation_errors (controller : callable) (r : remainder)
    (p : params) (exception : validation_error)
    : M (option string * callable * bool) :=
  modify (with_validation (set_exception exception));;
  modify (with_validation (populate_status exception));;
  w ← get;
  let validation_status := validation w in
  match error_handler validation_status with
  | None => mret (im_self controller, default_im_func controller, false)
  | Some handler =>
      mret (im_self controller, handler, chain_validation validation_status)
  end.

(** *** [_render_response] *)

Definition charset_types : list string :=
  ["application/xhtml+xml"; "application/xml"; "application/json"].

(** The content-type defaulting at the top of [_render_response]. *)
Definition default_content_type (engine_content_type : option string)
    (resp : Response) : Response :=
  match content_type resp, engine_content_type with
  | None, Some engine_content_type =>
      let resp := set_header "Content-Type" engine_content_type resp in
      let content_type := default EmptyString (headers resp !! "Content-Type") in
      if negb (Str.contains "charset" content_type)
         && (Str.startswith "text" content_type
             || Str.in_tuple content_type charset_types)
      then set_content_type (content_type +:+ "; charset=utf-8") resp
      else resp
  | _, _ => resp
  end.

Definition py_opt_str (s : option string) : pyobj :=
  match s with Some s => PyStr s | None => PyNone end.

(** The [if 'paste.testing' in req.environ] block. *)
Definition expose_testing_variables (namespace : params) (template_name : option string)
    (exclude_names : list string) (render_params : params) (response : params)
    : M unit :=
  w ← get;
  match environ w !! "paste.testing" with
  | None => mret tt
  | Some _ =>
      match environ w !! "paste.testing_variables" with
      | None => raise (OtherException "KeyError")
      | Some (PyDict testing_variables) =>
          let testing_variables := <["namespace" := PyDict namespace]> testing_variables in
          let testing_variables := <["template_name" := py_opt_str template_name]> testing_variables in
          let testing_variables :=
            <["exclude_names" := PyList (map PyStr exclude_names)]> testing_variables in
          let testing_variables := <["render_params" := PyDict render_params]> testing_variables in
          let testing_variables := <["controller_output" := PyDict response]> testing_variables in
          modify (with_environ <["paste.testing_variables" := PyDict testing_variables]>)
      | Some _ => raise (OtherException "TypeError")
      end
  end.

Definition _render_response (controller : callable) (response : pyobj)
    : M render_result :=
  w ← get;
  let '(engine_content_type, engine_name, template_name, exclude_names, render_params) :=
    lookup_template_engine (decoration_of controller) w in
  let result := {| r_response := response; r_content_type := engine_content_type;
                   r_engine_name := engine_name; r_template_name := template_name |} in
  modify (with_response (default_content_type engine_content_type));;
  match response with
  | PyDict response =>
      (* [namespace] and [response] are one object: the pops show in both *)
      let namespace := foldl (fun namespace name => delete name namespace)
                             response exclude_names in
      let response := namespace in
      expose_testing_variables namespace template_name exclude_names render_params response;;
      emit (TgRender namespace engine_name template_name render_params);;
      let rendered := tg_render tg namespace engine_name template_name render_params in
      mret {| r_response := PyStr rendered; r_content_type := r_content_type result;
              r_engine_name := r_engine_name result;
              r_template_name := r_template_name result |}
  | _ => mret result
  end.

(** *** [_call] *)

(** [if not resp_headers.get('Content-Type'): resp_headers.pop('Content-Type', None)] *)
Definition drop_empty_content_type (resp : Response) : Response :=
  match headers resp !! "Content-Type" with
  | None | Some EmptyString =>
      {| headers := delete "Content-Type" (headers resp); status := status resp |}
  | Some _ => resp
  end.

(** [controller_caller(context_config, bound_controller_callable, remainder, params)] *)
Definition call_controller (action : callable) (f : bound_callable)
    (r : remainder) (p : params) : M pyobj := fun w =>
  let w1 := (emit (ControllerCaller f r p) w).2 in
  let (out, resp) := controller_caller (decoration_of action) f r p (response w1) in
  (out, with_response (fun _ => resp) w1).

(** The [while chain_validation] loop; [fuel] bounds the number of passes. *)
Fixpoint chain_loop (fuel : nat) (validate_params : params) (r : remainder)
    (instance : option string) (error_handler : callable) (chain_validation : bool)
    (p : params) {struct fuel} : M (option string * callable * params) :=
  if chain_validation then
    match fuel with
    | O => fun w => (OutOfFuel, w)
    | S fuel =>
        try_validation (_perform_validate error_handler validate_params)
          (fun inv =>
             '(instance, error_handler, chain_validation) ←
               _process_validation_errors error_handler r p inv;
             chain_loop fuel validate_params r instance error_handler chain_validation p)
          (fun p =>
             chain_loop fuel validate_params r instance error_handler false p)
    end
  else mret (instance, error_handler, p).

(** The tail of [_call], from the [before_call] hook on. *)
Definition invoke_and_render (action : callable)
    (bound_controller_callable : bound_callable) (r : remainder) (p : params)
    : M pyobj :=
  emit (Notify "before_call" (ArgsParams r p) action);;
  output ← call_controller action bound_controller_callable r p;
  emit (Notify "before_render" (ArgsOutput r p output) action);;
  response ← _render_response action output;
  emit (Notify "after_render" (ArgsResponse response) action);;
  mret (r_response response).

Definition _call (fuel : nat) (action : callable) (p : params)
    (r : option remainder) : M pyobj :=
  modify (with_validation (fun _ => new_ValidationStatus));;
  modify (with_response drop_empty_content_type);;
  let r : remainder := map (url2pathname tg) (default [] r) in
  emit (Notify "before_validate" (ArgsParams r p) action);;
  emit (GetParamsWithArgspec action p r);;
  let validate_params := get_params_with_argspec tg action p r in
  modify (with_args_params validate_params);;
  '(action, bound_controller_callable, r, p) ←
    try_validation (_perform_validate action validate_params)
      (fun inv =>
         '(instance, error_handler, chain_validation) ←
           _process_validation_errors action r p inv;
         '(instance, error_handler, p) ←
           chain_loop fuel validate_params r instance error_handler chain_validation p;
         mret (error_handler, Partial error_handler instance, r, p))
      (fun p =>
         modify (with_validation (set_values (PyDict p)));;
         emit (FlattenArguments action p r);;
         let (r, p) := flatten_arguments tg action p r in
         mret (action, Action action, r, p));
  invoke_and_render action bound_controller_callable r p.

(** *** [_check_security] *)

(** What [allow_only] holds: an object with a [predicate] attribute that
    answers the request by itself, or a bare predicate. *)
Inductive requirement : Type :=
| FullRequirement (_check_authorization : M unit)
| Predicate (check_authorization : M unit).

(** The controller instance, as far as [_check_security] reads it. *)
Record controller_instance : Type := {
  allow_only : option requirement;
  _failed_authorization : option (string -> M unit)
}.

(** [try: body except NotAuthorizedError as e: handler] *)
Definition try_not_authorized {A} (body : M A) (handler : string -> M A) : M A :=
  fun w =>
  match body w with
  | (Raises (NotAuthorizedError reason), w') => handler reason w'
  | r => r
  end.

(** [abort(code, comment=reason)] *)
Definition abort {A} (code : Z) (comment : string) : M A :=
  emit (Abort code comment);; raise (HTTPException code comment).

(** Returns [Some true] for [True] and [None] for falling off the end. *)
Definition _check_security (self : controller_instance) : M (option bool) :=
  match allow_only self with
  | None => mret (Some true)
  | Some (FullRequirement _check_authorization) =>
      _check_authorization;; mret (Some true)
  | Some (Predicate check_authorization) =>
      try_not_authorized (check_authorization;; mret None)
        (fun reason =>
           match _failed_authorization self with
           | Some hook => emit (FailedAuthorization reason);; hook reason
           | None => mret tt
           end;;
           w ← get;
           let '(code, severity) :=
             if not_anonymous_is_met tg (environ w) then (403%Z, "error")
             else (401%Z, "warning") in
           modify (with_response (set_status code));;
           emit (Flash reason severity);;
           abort code reason)
  end.

(** *** Views of the above, for the statements *)

(** The error map of the status after the classifier has run.  The
    classifier reads neither the remainder nor the parameters it is passed;
    they are left empty here. *)
Definition errors_after (controller : callable) (e : validation_error) (w : world)
    : gmap string pyobj :=
  errors (validation (_process_validation_errors controller [] ∅ e w).2).

(** The world in which [_call] runs the validation of the action: the
    status reset, an empty content type dropped, the [before_validate] hook
    notified and the parameters merged with the action's signature. *)
Definition validation_world (action : callable) (p : params) (r : option remainder)
    (w : world) : world :=
  let r' := map (url2pathname tg) (default [] r) in
  with_args_params (get_params_with_argspec tg action p r')
    (logged (GetParamsWithArgspec action p r')
       (logged (Notify "before_validate" (ArgsParams r' p) action)
          (with_response drop_empty_content_type
             (with_validation (fun _ => new_ValidationStatus) w)))).

(** The validation phase of [_call]: the [try] statement. *)
Definition validation_phase (fuel : nat) (action : callable) (p : params)
    (r : remainder) (validate_params : params)
    : M (callable * bound_callable * remainder * params) :=
  try_validation (_perform_validate action validate_params)
    (fun inv =>
       '(instance, error_handler, chain_validation) ←
         _process_validation_errors action r p inv;
       '(instance, error_handler, p) ←
         chain_loop fuel validate_params r instance error_handler chain_validation p;
       mret (error_handler, Partial error_handler instance, r, p))
    (fun p =>
       modify (with_validation (set_values (PyDict p)));;
       emit (FlattenArguments action p r);;
       let (r, p) := flatten_arguments tg action p r in
       mret (action, Action action, r, p)).

End Dispatch.

(** * Notions of the specification *)

(** The entry of one line of a text failure, in the words of the
    specification: the line is split at its first colon into a field key and
    a message, both stripped; a line without a colon is a whole-form error
    under the reserved key. *)
Definition line_entry (line : string) : string * string :=
  match String.index 0 ":" line with
  | Some i =>
      (Str.strip (String.substring 0 i line),
       Str.strip (String.substring (S i) (String.length line - S i) line))
  | None => ("_the_form", Str.strip line)
  end.

(** The message of the last line keyed [k], if any line is. *)
Definition last_message (k : string) (lines : list string) : option string :=
  last (omap (fun line =>
                if decide ((line_entry line).1 = k) then Some (line_entry line).2
                else None) lines).

(** The two text failures of the specification's examples. *)
Definition two_fields : string := "a: bad" +:+ nl +:+ "b: bad2".

Definition whole_form : string := "overall bad".

(** A mapping without the keys of a list, in the words of the
    specification: the entries whose key is not listed. *)
Definition without_keys (names : list string) (d : params) : params :=
  filter (fun kv => kv.1 ∉ names) d.

(** A request outside the test harness, or one whose testing variables are
    the dict the harness provides. *)
Definition testing_variables_ok (env : gmap string pyobj) : Prop :=
  env !! "paste.testing" = None
  \/ exists tv, env !! "paste.testing_variables" = Some (PyDict tv).

(** [appends P m]: running [m] only adds to the log, and adds only events
    that satisfy [P]. *)
Definition appends {A} (P : event -> Prop) (m : M A) : Prop :=
  forall w, exists evs, log (m w).2 = log w ++ evs /\ Forall P evs.

(** A call of an intent's [check]. *)
Definition is_check (e : event) : Prop :=
  match e with IntentCheck _ _ _ => True | _ => False end.

(** Step 4 or step 5 of the dispatch: a [before_validate] notification, or a
    merge of remainder and parameters by a method's signature. *)
Definition is_validate_step (e : event) : Prop :=
  match e with
  | Notify hook _ _ => hook = "before_validate"
  | GetParamsWithArgspec _ _ _ => True
  | _ => False
  end.

(** ** A concrete application, to run the definitions on *)

Module Demo.

(** [index] carries one validation intent, ["v"], which rejects everything
    with a text failure and selects [on_error] with chaining; [on_error]
    carries the intent ["hv"], which accepts and adds a key; [plain] has no
    validations. *)
Definition index : callable := Callable "index" (Some "root").
Definition on_error : callable := Callable "on_error" None.
Definition plain : callable := Callable "plain" (Some "root").
(** [two] carries the intents ["a"] and ["b"], which both accept. *)
Definition two : callable := Callable "two" (Some "root").

Definition failing_status (st : ValidationStatus) : ValidationStatus :=
  {| intent := intent st; errors := errors st; values := values st;
     exception := exception st; error_handler := Some on_error;
     chain_validation := true |}.

(** [retry] is its own error handler: its intent ["again"] rejects
    everything and selects [retry] with chaining. *)
Definition retry : callable := Callable "retry" None.

Definition retrying_status (st : ValidationStatus) : ValidationStatus :=
  {| intent := intent st; errors := errors st; values := values st;
     exception := exception st; error_handler := Some retry;
     chain_validation := true |}.

Definition demo_check (validation_intent : string) (controller : callable)
    (p : params) (st : ValidationStatus) : outcome params * ValidationStatus :=
  if String.eqb validation_intent "v"
  then (Raises (ValidationExn (Invalid "age: not a number" None)), failing_status st)
  else if String.eqb validation_intent "again"
  then (Raises (ValidationExn (Invalid "again" None)), retrying_status st)
  else (Returns (<["checked" := PyStr validation_intent]> p), st).

Definition demo_decoration (f : string) : Decoration :=
  {| validations :=
       if String.eqb f "index" then ["v"]
       else if String.eqb f "on_error" then ["hv"]
       else if String.eqb f "two" then ["a"; "b"]
       else if String.eqb f "retry" then ["again"]
       else [];
     controller_caller := fun _ _ p resp => (Returns (PyDict p), resp);
     lookup_template_engine := fun _ =>
       (Some "application/json", Some "json", None, ["y"], ∅) |}.

Definition demo : Collaborators :=
  {| decoration := demo_decoration;
     check := demo_check;
     get_params_with_argspec := fun _ p _ => p;
     flatten_arguments := fun _ p r => (r, p);
     url2pathname := fun s => s;
     _navigate_tw2form_children := fun w =>
       match w with Tw2 _ _ _ children => children end;
     tg_render := fun _ _ _ _ => "rendered";
     not_anonymous_is_met := fun env =>
       match env !! "REMOTE_USER" with Some _ => true | None => false end |}.

Definition fresh_world : world :=
  {| validation := new_ValidationStatus; args_params := ∅; environ := ∅;
     response := {| headers := ∅; status := None |}; log := [] |}.

End Demo.

(** ** Concrete requests *)

(** The status of a request whose first validation failed with the text
    failure ["age: not a number"]. *)
Definition after_first_failure : world :=
  (_process_validation_errors Demo.demo Demo.index [] ∅
     (Invalid "age: not a number" None) Demo.fresh_world).2.

(** The claim of C2 as it is written, at one status and one failure: the
    failure ["a: bad\nb: bad2"] yields exactly [{a: "bad", b: "bad2"}]. *)
Definition yields_exactly_two_fields (w : world) : Prop :=
  errors_after Demo.demo Demo.on_error (Invalid two_fields None) w
  = <["a" := PyStr "bad"]> (<["b" := PyStr "bad2"]> ∅).

(** A request whose status asks for chaining but names no error handler. *)
Definition chaining_without_handler : world :=
  with_validation
    (fun st => {| intent := intent st; errors := errors st; values := values st;
                  exception := exception st; error_handler := None;
                  chain_validation := true |})
    Demo.fresh_world.

(** The example of the specification: [{"x": 1, "y": 2}] rendered with the
    exclude-list [["y"]]. *)
Definition xy : params := <["x" := PyInt 1]> (<["y" := PyInt 2]> ∅).

(** The dispatch of [Demo.index]: its intent fails and selects [on_error]
    with chaining, and the intent of [on_error] passes. *)
Definition chained_dispatch : outcome pyobj * world :=
  _call Demo.demo 3 Demo.index ∅ None Demo.fresh_world.

(** The claim of C1 as it is written, on the log of a dispatch: steps 4 to
    6 are gone through again against the error handler, so the
    [before_validate] hook is notified for the handler, the parameters are
    merged for the handler, and the handler is validated. *)
Definition repeats_steps_4_to_6 (handler : callable) (l : list event) : Prop :=
  (exists r p, In (Notify "before_validate" (ArgsParams r p) handler) l)
  /\ (exists p r, In (GetParamsWithArgspec handler p r) l)
  /\ (exists v p, In (IntentCheck v handler p) l).

(** The worlds the dispatch of [Demo.index] goes through: before its
    validation, after the failure, after the classifier. *)
Definition chained_w0 : world :=
  validation_world Demo.demo Demo.index ∅ None Demo.fresh_world.

Definition chained_inv : validation_error := Invalid "age: not a number" None.

Definition chained_w1 : world := (_perform_validate Demo.demo Demo.index ∅ chained_w0).2.

Definition chained_w2 : world :=
  (_process_validation_errors Demo.demo Demo.index [] ∅ chained_inv chained_w1).2.

(** A predicate that rejects every request. *)
Definition members_only : M unit := raise (NotAuthorizedError "members only").

(** A controller guarded by it. *)
Definition guarded : controller_instance :=
  {| allow_only := Some (Predicate members_only); _failed_authorization := None |}.

(** A controller guarded by it, whose [_failed_authorization] hook sends the
    requester to the login page instead. *)
Definition guarded_redirecting : controller_instance :=
  {| allow_only := Some (Predicate members_only);
     _failed_authorization := Some (fun _ => raise (HTTPException 302 "/login")) |}.

(** The claim of C4 as it is written, for one controller and one request in
    which the bare predicate fails with [reason]: the checker sets the status
    and flashes, by whether the requester is known, and aborts with the
    reason. *)
Definition sets_status_flashes_and_aborts (tg : Collaborators)
    (self : controller_instance) (reason : string) (w : world) : Prop :=
  let run := _check_security tg self w in
  let known := not_anonymous_is_met tg (environ w) in
  let code := if known then 403%Z else 401%Z in
  let severity := if known then "error" else "warning" in
  status (response run.2) = Some code
  /\ In (Flash reason severity) (log run.2)
  /\ run.1 = Raises (HTTPException code reason).

(** ** Frames and hook sequences *)

(** [preserves f m]: running [m] leaves the part [f] of the world as it
    was, however [m] ends. *)
Definition preserves {X A} (f : world -> X) (m : M A) : Prop :=
  forall w, f (m w).2 = f w.

(** The names of the hooks notified in a log, in order. *)
Definition hook_names (l : list event) : list string :=
  omap (fun e => match e with Notify hook _ _ => Some hook | _ => None end) l.

(** A call of something other than the hook dispatcher. *)
Definition not_notify (e : event) : Prop :=
  match e with Notify _ _ _ => False | _ => True end.


(** [notifies names m]: the hooks that [m] notifies are, in order, an
    initial part of [names], and all of [names] when [m] returns. *)
Definition notifies {A} (names : list string) (m : M A) : Prop :=
  forall w, exists done,
    hook_names (log (m w).2) = hook_names (log w) ++ done
    /\ done `prefix_of` names
    /\ (forall a, (m w).1 = Returns a -> done = names).

(** The world in which [_call] goes on to invoke an action whose
    validation passed with [validated] in [w1]: the values stored and the
    arguments flattened. *)
Definition invocation_world (action : callable) (validated : params) (r : remainder)
    (w1 : world) : world :=
  logged (FlattenArguments action validated r)
    (with_validation (set_values (PyDict validated)) w1).

(** ** A second application: a shop *)

Module Shop.

(** [checkout] carries three intents: ["trim"] accepts and marks the
    parameters, ["age"] rejects with a text failure that carries the raw
    values and selects [form] without chaining, ["never"] would accept.
    [redirecting] carries ["login"], which raises a redirect.  [crashing] has
    no validations, and its body raises a validation failure.  [form] and
    [browse] have no validations. *)
Definition checkout : callable := Callable "checkout" (Some "shop").
Definition form : callable := Callable "form" None.
Definition redirecting : callable := Callable "redirecting" (Some "shop").
Definition crashing : callable := Callable "crashing" (Some "shop").
Definition browse : callable := Callable "browse" (Some "shop").

Definition rejected (st : ValidationStatus) : ValidationStatus :=
  {| intent := intent st; errors := errors st; values := values st;
     exception := exception st; error_handler := Some form;
     chain_validation := false |}.

Definition shop_check (validation_intent : string) (controller : callable)
    (p : params) (st : ValidationStatus) : outcome params * ValidationStatus :=
  if String.eqb validation_intent "trim"
  then (Returns (<["trimmed" := PyInt 1]> p), st)
  else if String.eqb validation_intent "age"
  then (Raises (ValidationExn (Invalid "age: not a number" (Some (PyDict p)))),
        rejected st)
  else if String.eqb validation_intent "login"
  then (Raises (HTTPException 302 "/login"), st)
  else (Returns p, st).

Definition function_of (f : bound_callable) : string :=
  match f with
  | Action action => im_func_name action
  | Partial error_handler _ => im_func_name error_handler
  end.

Definition shop_decoration (f : string) : Decoration :=
  {| validations :=
       if String.eqb f "checkout" then ["trim"; "age"; "never"]
       else if String.eqb f "redirecting" then ["login"]
       else [];
     controller_caller := fun b _ p resp =>
       if String.eqb (function_of b) "crashing"
       then (Raises (ValidationExn (Invalid "too late" None)), resp)
       else if String.eqb (function_of b) "form"
       then (Returns (PyStr "<form/>"), resp)
       else (Returns (PyDict p), resp);
     lookup_template_engine := fun _ =>
       (Some "image/png", Some "chart", Some "shop.templates.chart", ["secret"], ∅) |}.

Definition shop : Collaborators :=
  {| decoration := shop_decoration;
     check := shop_check;
     get_params_with_argspec := fun _ p r =>
       match r with
       | [] => p
       | segment :: _ => <["id" := PyStr segment]> p
       end;
     flatten_arguments := fun _ p r => ([], p);
     url2pathname := fun s => s;
     _navigate_tw2form_children := fun w =>
       match w with Tw2 _ _ _ children => children end;
     tg_render := fun _ _ _ _ => "<html/>";
     not_anonymous_is_met := fun env =>
       match env !! "REMOTE_USER" with Some _ => true | None => false end |}.

(** A test request: the harness has put its variables in the environ. *)
Definition test_world : world :=
  {| validation := new_ValidationStatus; args_params := ∅;
     environ := <["paste.testing" := PyInt 1]>
                  (<["paste.testing_variables" := PyDict (<["seen" := PyInt 3]> ∅)]> ∅);
     response := {| headers := ∅; status := None |}; log := [] |}.

(** A test request that lacks the variables. *)
Definition broken_test_world : world :=
  {| validation := new_ValidationStatus; args_params := ∅;
     environ := <["paste.testing" := PyInt 1]> ∅;
     response := {| headers := ∅; status := None |}; log := [] |}.

(** A request whose response already has a content type. *)
Definition typed_world : world :=
  {| validation := new_ValidationStatus; args_params := ∅; environ := ∅;
     response := {| headers := <["Content-Type" := "text/csv"]> ∅; status := None |};
     log := [] |}.

End Shop.

(** ** Requests to the shop *)

(** The request [/browse/7?q=1] of the shop. *)
Definition browse_q : params := <["q" := PyInt 1]> ∅.
Definition browse_merged : params := <["id" := PyStr "7"]> browse_q.

(** The worlds the dispatch of [Shop.checkout] goes through: before its
    validation, after the failure, after the classifier. *)
Definition checkout_w0 : world :=
  validation_world Shop.shop Shop.checkout browse_q None Demo.fresh_world.
Definition checkout_inv : validation_error :=
  Invalid "age: not a number" (Some (PyDict (<["trimmed" := PyInt 1]> browse_q))).
Definition checkout_w1 : world :=
  (_perform_validate Shop.shop Shop.checkout browse_q checkout_w0).2.
Definition checkout_w2 : world :=
  (_process_validation_errors Shop.shop Shop.checkout [] browse_q checkout_inv
     checkout_w1).2.

(** * Properties *)

Ltac unfold_M :=
  unfold mbind, M_bind, mret, M_ret, modify, emit, get, raise,
    try_validation in *.

(** ** Python strings, run *)

Example split_lines : Str.split LF two_fields = ["a: bad"; "b: bad2"].
Proof. reflexivity. Qed.

Example split_keeps_empty_lines : Str.split LF ("a" +:+ nl +:+ nl) = ["a"; ""; ""].
Proof. reflexivity. Qed.

Example split_max1_first_colon : Str.split_max1 COLON "a: b: c" = ["a"; " b: c"].
Proof. reflexivity. Qed.

Example strip_both_ends : strip_string "  a b  " = "a b".
Proof. reflexivity. Qed.

Example line_entry_field : line_entry " email : not an address " = ("email", "not an address").
Proof. reflexivity. Qed.

Example line_entry_whole_form : line_entry "overall bad" = ("_the_form", "overall bad").
Proof. reflexivity. Qed.

(** ** The validation runner *)

Section ValidationRunner.

Variable tg : Collaborators.

(** Running a list of intents in two pieces: the second piece starts from
    the parameters and the world the first piece ends with, and is not run
    when the first piece raises. *)
Lemma validate_loop_app (controller : callable) (before after : list string)
    (p : params) (w : world) :
  validate_loop tg controller (before ++ after) p w =
  match validate_loop tg controller before p w with
  | (Returns pk, wk) => validate_loop tg controller after pk wk
  | (Raises e, wk) => (Raises e, wk)
  | (OutOfFuel, wk) => (OutOfFuel, wk)
  end.
Proof.
  revert p w. induction before as [|v before IH]; intros p w; [reflexivity |].
  simpl. unfold_M. simpl. unfold call_check.
  destruct (check tg v controller p _) as [[p'|e|] st]; simpl; auto.
Qed.

(** The calls [validate_loop] makes are [check] calls, one per intent, in
    the order of the list, until one raises. *)
Lemma validate_loop_log (controller : callable) (vs : list string) (p : params) (w : world) :
  exists inputs : list params,
    log (validate_loop tg controller vs p w).2
      = log w ++ zip_with (fun v pin => IntentCheck v controller pin) vs inputs
    /\ length inputs <= length vs
    /\ (forall v rest, vs = v :: rest -> head inputs = Some p)
    /\ (forall r, (validate_loop tg controller vs p w).1 = Returns r ->
        length inputs = length vs).
Proof.
  revert p w. induction vs as [|v vs IH]; intros p w.
  - exists []. simpl. rewrite app_nil_r. repeat split; auto; discriminate.
  - simpl. unfold_M. simpl. unfold call_check.
    destruct (check tg v controller p _) as [[p'|e|] st] eqn:Hc; simpl.
    + match goal with |- context [validate_loop tg controller vs p' ?w1] =>
        destruct (IH p' w1) as (inputs & Hlog & Hlen & _ & Hret) end.
      exists (p :: inputs). simpl in *. rewrite Hlog, <- app_assoc. simpl.
      repeat split; auto; [lia |]. intros r Hr. f_equal. eauto.
    + exists [p]. simpl. destruct vs; simpl; repeat split; auto; try lia; discriminate.
    + exists [p]. simpl. destruct vs; simpl; repeat split; auto; try lia; discriminate.
Qed.

(** C6. With a non-empty list of validation intents, [_perform_validate]
    calls the intents' [check] in their declared order, the first one on the
    incoming parameters; the intent at any position receives what the run of
    the intents before it returned, the rest of the list continues from its
    output, and so the result is the output of the last intent. *)
Theorem perform_validate_threads (controller : callable) (p : params) (w : world) :
  validations (decoration_of tg controller) <> [] ->
  let vs := validations (decoration_of tg controller) in
  (exists inputs : list params,
      log (_perform_validate tg controller p w).2
        = log w ++ zip_with (fun v pin => IntentCheck v controller pin) vs inputs
      /\ head inputs = Some p
      /\ length inputs <= length vs
      /\ (forall r, (_perform_validate tg controller p w).1 = Returns r ->
          length inputs = length vs))
  /\ (forall before v after pk wk,
        vs = before ++ v :: after ->
        validate_loop tg controller before p w = (Returns pk, wk) ->
        _perform_validate tg controller p w
        = (p' ← call_check tg v controller pk; validate_loop tg controller after p')
            (with_validation (set_intent v) wk))
  /\ (forall before v pk wk,
        vs = before ++ [v] ->
        validate_loop tg controller before p w = (Returns pk, wk) ->
        _perform_validate tg controller p w
        = call_check tg v controller pk (with_validation (set_intent v) wk)).
Proof.
  intros Hne. cbv zeta.
  remember (validations (decoration_of tg controller)) as vs eqn:Hvs.
  assert (Hrun : _perform_validate tg controller p w = validate_loop tg controller vs p w).
  { unfold _perform_validate. rewrite <- Hvs. destruct vs; [congruence | reflexivity]. }
  assert (Hpos : forall before v after pk wk,
        vs = before ++ v :: after ->
        validate_loop tg controller before p w = (Returns pk, wk) ->
        _perform_validate tg controller p w
        = (p' ← call_check tg v controller pk; validate_loop tg controller after p')
            (with_validation (set_intent v) wk)).
  { intros before v after pk wk Hsplit Hbefore.
    rewrite Hrun, Hsplit, validate_loop_app, Hbefore. reflexivity. }
  split; [| split; [exact Hpos |]].
  - rewrite Hrun.
    destruct (validate_loop_log controller vs p w) as (inputs & Hlog & Hlen & Hhd & Hret).
    exists inputs. repeat split; auto.
    destruct vs as [|v rest] eqn:E; [congruence | eauto].
  - intros before v pk wk Hsplit Hbefore.
    rewrite (Hpos before v [] pk wk Hsplit Hbefore).
    unfold_M. simpl. destruct (call_check tg v controller pk _) as [[?|?|] ?]; reflexivity.
Qed.

End ValidationRunner.

(** ** The error classifier *)

(** *** Text failures *)

Lemma substring_all (s : string) : String.substring 0 (String.length s) s = s.
Proof. induction s as [|c s IH]; simpl; [reflexivity | now rewrite IH]. Qed.

(** [split(':', 1)] cuts at the first colon and nowhere else. *)
Lemma split_max1_index (s : string) :
  Str.split_max1 COLON s =
  match String.index 0 ":" s with
  | Some i => [String.substring 0 i s;
               String.substring (S i) (String.length s - S i) s]
  | None => [s]
  end.
Proof.
  induction s as [|c s IH]; [reflexivity |].
  cbn [Str.split_max1 String.index String.prefix].
  destruct (ascii_dec ":" c) as [<-|Hne].
  - change (Ascii.eqb ":" COLON) with true. cbn.
    assert (String.prefix "" s = true) as -> by (destruct s; reflexivity).
    cbn. now rewrite Nat.sub_0_r, substring_all.
  - assert (Ascii.eqb c COLON = false) as ->.
    { apply Ascii.eqb_neq. intros ->. now apply Hne. }
    rewrite IH. destruct (String.index 0 ":" s) as [i|]; reflexivity.
Qed.

(** One pass of the source loop stores the entry of its line. *)
Lemma record_error_entry (errs : gmap string pyobj) (line : string) :
  record_error errs line
  = <[(line_entry line).1 := PyStr (line_entry line).2]> errs.
Proof.
  unfold record_error, line_entry. rewrite split_max1_index.
  destruct (String.index 0 ":" line); reflexivity.
Qed.

(** The whole loop: per key, the last line keyed so wins, and a key that no
    line names keeps what the map held. *)
Lemma foldl_record_error_lookup (lines : list string) (errs : gmap string pyobj) (k : string) :
  foldl record_error errs lines !! k =
  match last_message k lines with
  | Some m => Some (PyStr m)
  | None => errs !! k
  end.
Proof.
  induction lines as [|line lines IH] using rev_ind; [reflexivity |].
  rewrite foldl_app. cbn [foldl]. rewrite record_error_entry.
  unfold last_message in *. rewrite omap_app. simpl (omap _ [line]).
  case_decide as Heq.
  - now rewrite last_snoc, Heq, lookup_insert_eq.
  - rewrite app_nil_r, lookup_insert_ne by done. exact IH.
Qed.

Section Classifier.

Variable tg : Collaborators.

(** The classifier always returns; its effect on the world is to store the
    exception and populate the status. *)
Lemma process_validation_errors_world (controller : callable) (r : remainder)
    (p : params) (e : validation_error) (w : world) :
  (_process_validation_errors tg controller r p e w).2
  = with_validation (fun st => populate_status tg e (set_exception e st)) w.
Proof.
  unfold _process_validation_errors. unfold_M. simpl.
  destruct (error_handler _); reflexivity.
Qed.

Lemma populate_status_error_handler (e : validation_error) (st : ValidationStatus) :
  error_handler (populate_status tg e st) = error_handler st
  /\ chain_validation (populate_status tg e st) = chain_validation st.
Proof. destruct e; split; reflexivity. Qed.

(** C3. When the validation status carries no error handler, the classifier
    returns the controller's underlying function as the error handler, with
    the chain-validation flag false, whatever the failure and whatever the
    flag on the status says. *)
Theorem process_validation_errors_no_handler (controller : callable) (r : remainder)
    (p : params) (e : validation_error) (w : world) :
  error_handler (validation w) = None ->
  (_process_validation_errors tg controller r p e w).1
  = Returns (im_self controller, default_im_func controller, false)
  /\ im_func_name (default_im_func controller) = im_func_name controller.
Proof.
  intros Hnone. split; [| reflexivity].
  unfold _process_validation_errors. unfold_M. simpl.
  destruct (populate_status_error_handler e (set_exception e (validation w))) as [-> _].
  simpl. now rewrite Hnone.
Qed.

End Classifier.

Lemma process_validation_errors_no_handler_witness :
  error_handler (validation chaining_without_handler) = None /\
  chain_validation (validation chaining_without_handler) = true /\
  (_process_validation_errors Demo.demo Demo.index [] ∅
     (Invalid "overall bad" None) chaining_without_handler).1
  = Returns (Some "root", Callable "index" None, false).
Proof.
  split; [reflexivity | split; [reflexivity |]].
  apply (process_validation_errors_no_handler Demo.demo Demo.index [] ∅
           (Invalid "overall bad" None) chaining_without_handler).
  reflexivity.
Defined.

Section TextFailures.

Variable tg : Collaborators.

Lemma errors_after_text (controller : callable) (str : string) (value : option pyobj)
    (w : world) :
  errors_after tg controller (Invalid str value) w
  = foldl record_error (errors (validation w)) (Str.split LF str).
Proof. unfold errors_after. now rewrite process_validation_errors_world. Qed.

(** C2, as amended.  For a text failure the classifier writes one entry per
    line of the failure's string form into the error map the status already
    holds: the line is split at its first colon into a stripped key and a
    stripped message, a line without a colon goes under [_the_form], and per
    key the last line wins; a key that no line names keeps its earlier entry.
    On a status whose error map is empty the two example failures give
    exactly the two maps of the specification. *)
Theorem text_failure_error_map (controller : callable) (str : string)
    (value : option pyobj) (w : world) :
  (forall k : string,
      errors_after tg controller (Invalid str value) w !! k =
      match last_message k (Str.split LF str) with
      | Some m => Some (PyStr m)
      | None => errors (validation w) !! k
      end)
  /\ (errors (validation w) = ∅ -> str = two_fields ->
      errors_after tg controller (Invalid str value) w
      = <["a" := PyStr "bad"]> (<["b" := PyStr "bad2"]> ∅))
  /\ (errors (validation w) = ∅ -> str = whole_form ->
      errors_after tg controller (Invalid str value) w
      = <["_the_form" := PyStr "overall bad"]> ∅).
Proof.
  split; [| split].
  - intros k. rewrite errors_after_text. apply foldl_record_error_lookup.
  - intros Hempty ->. rewrite errors_after_text, Hempty. reflexivity.
  - intros Hempty ->. rewrite errors_after_text, Hempty. reflexivity.
Qed.

(** C10. A text failure updates the error map of the status in place:
    every key that no line of the message names keeps its entry.  A
    structured failure and a widget failure replace the map, whatever it
    held.  Hence of two text failures classified in one request, the second
    keeps the entries of the first under the keys it does not name. *)
Theorem classifier_error_map_frame (controller : callable) (w : world) :
  (forall str value k,
      last_message k (Str.split LF str) = None ->
      errors_after tg controller (Invalid str value) w !! k
      = errors (validation w) !! k)
  /\ (forall error_dict value,
      errors_after tg controller (TGValidationError error_dict value) w = error_dict)
  /\ (forall widget_child,
      errors_after tg controller (Tw2ValidationError widget_child) w
      = dict_of (map (fun child => (tw2_compound_key child, tw2_error_msg child))
                     (_navigate_tw2form_children tg widget_child)))
  /\ (forall handler str1 value1 str2 value2 k m,
      last_message k (Str.split LF str1) = Some m ->
      last_message k (Str.split LF str2) = None ->
      let w1 := (_process_validation_errors tg controller [] ∅
                   (Invalid str1 value1) w).2 in
      errors_after tg handler (Invalid str2 value2) w1 !! k = Some (PyStr m)).
Proof.
  repeat split.
  - intros str value k Hk.
    rewrite errors_after_text, foldl_record_error_lookup, Hk. reflexivity.
  - intros error_dict value. unfold errors_after.
    now rewrite process_validation_errors_world.
  - intros widget_child. unfold errors_after.
    now rewrite process_validation_errors_world.
  - intros handler str1 value1 str2 value2 k m H1 H2 w1.
    rewrite errors_after_text, foldl_record_error_lookup, H2.
    subst w1. fold (errors_after tg controller (Invalid str1 value1) w).
    rewrite errors_after_text, foldl_record_error_lookup, H1. reflexivity.
Qed.

End TextFailures.

Lemma text_failure_error_map_witness :
  errors (validation Demo.fresh_world) = ∅ /\
  errors_after Demo.demo Demo.index (Invalid two_fields None) Demo.fresh_world
  = <["a" := PyStr "bad"]> (<["b" := PyStr "bad2"]> ∅).
Proof.
  split; [reflexivity |].
  apply (text_failure_error_map Demo.demo Demo.index two_fields None Demo.fresh_world);
    reflexivity.
Defined.

(** C2, counterexample: on the status left by an earlier failure of the same
    request, the failure ["a: bad\nb: bad2"] yields a map of three entries,
    the earlier [age] among them. *)
Lemma text_failure_not_exact :
  errors_after Demo.demo Demo.on_error (Invalid two_fields None) after_first_failure
  = <["a" := PyStr "bad"]> (<["b" := PyStr "bad2"]>
      (<["age" := PyStr "not a number"]> ∅))
  /\ ~ yields_exactly_two_fields after_first_failure.
Proof.
  assert (Hrun : errors_after Demo.demo Demo.on_error (Invalid two_fields None)
                   after_first_failure
                 = <["a" := PyStr "bad"]> (<["b" := PyStr "bad2"]>
                     (<["age" := PyStr "not a number"]> ∅))) by reflexivity.
  split; [exact Hrun |].
  unfold yields_exactly_two_fields. rewrite Hrun. intros Heq.
  apply (f_equal (fun m => m !! "age")) in Heq. vm_compute in Heq. discriminate.
Qed.

Lemma classifier_error_map_frame_witness :
  last_message "age" (Str.split LF "age: not a number") = Some "not a number" /\
  last_message "age" (Str.split LF two_fields) = None /\
  errors_after Demo.demo Demo.on_error (Invalid two_fields None) after_first_failure
    !! "age" = Some (PyStr "not a number").
Proof.
  split; [reflexivity | split; [reflexivity |]].
  apply (classifier_error_map_frame Demo.demo Demo.index Demo.fresh_world); reflexivity.
Defined.

(** ** The renderer *)

(** Popping the listed keys one after the other leaves exactly the entries
    whose key is not listed; popping an absent key does nothing. *)
Lemma pop_all_without_keys (names : list string) (d : params) :
  foldl (fun namespace name => delete name namespace) d names = without_keys names d.
Proof.
  unfold without_keys. revert d.
  induction names as [|name names IH]; intros d; simpl.
  - apply map_eq. intros k. apply option_eq. intros v.
    rewrite map_lookup_filter_Some. cbn. split; [intros Hk | tauto].
    split; [exact Hk | apply not_elem_of_nil].
  - rewrite IH. apply map_eq. intros k. apply option_eq. intros v.
    rewrite !map_lookup_filter_Some, lookup_delete_Some. cbn.
    rewrite not_elem_of_cons. split.
    + intros [[Hne Hk] Hnot]. split; [exact Hk | split; [congruence | exact Hnot]].
    + intros [Hk [Hne Hnot]]. split; [split; [congruence | exact Hk] | exact Hnot].
Qed.

(** The content-type defaulting appends the charset to a textual, XML,
    XHTML or JSON type that names none. *)
Lemma default_content_type_charset (ct : string) (resp : Response) :
  content_type resp = None ->
  Str.contains "charset" ct = false ->
  Str.startswith "text" ct = true \/ In ct charset_types ->
  headers (default_content_type (Some ct) resp) !! "Content-Type"
  = Some (ct +:+ "; charset=utf-8").
Proof.
  intros Hnone Hcharset Hkind. unfold default_content_type. rewrite Hnone.
  cbn [set_header headers]. rewrite lookup_insert_eq.
  cbn [default from_option]. unfold id. rewrite Hcharset.
  assert (Str.startswith "text" ct || Str.in_tuple ct charset_types = true) as ->.
  { destruct Hkind as [-> | Hin]; [reflexivity |].
    apply orb_true_iff. right. unfold Str.in_tuple. apply existsb_exists.
    exists ct. split; [exact Hin | apply String.eqb_refl]. }
  cbn. apply lookup_insert_eq.
Qed.

Section Renderer.

Variable tg : Collaborators.

(** Whatever the controller returned and however the rendering ends, the
    response the renderer leaves is the one it found, after the content-type
    defaulting. *)
Lemma render_response_response (controller : callable) (output : pyobj) (w : world) :
  response (_render_response tg controller output w).2
  = default_content_type (lookup_template_engine (decoration_of tg controller) w).1.1.1.1
      (response w).
Proof.
  unfold _render_response, expose_testing_variables. unfold_M. cbn.
  destruct (lookup_template_engine _ w) as [[[[ct en] tn] ex] rp]. cbn.
  destruct output; cbn; try reflexivity.
  destruct (environ w !! "paste.testing"); cbn; [| reflexivity].
  destruct (environ w !! "paste.testing_variables") as [[]|]; reflexivity.
Qed.

(** C7. When the response has no content type and the engine lookup
    suggests one that starts with ["text"] or is one of
    ["application/xhtml+xml"], ["application/xml"], ["application/json"],
    and that does not contain ["charset"], the renderer leaves the
    response's content type set to the suggested type followed by
    ["; charset=utf-8"]. *)
Theorem render_response_charset (controller : callable) (output : pyobj) (w : world)
    (ct : string) (engine_name template_name : option string)
    (exclude_names : list string) (render_params : params) :
  content_type (response w) = None ->
  lookup_template_engine (decoration_of tg controller) w
  = (Some ct, engine_name, template_name, exclude_names, render_params) ->
  Str.contains "charset" ct = false ->
  Str.startswith "text" ct = true \/ In ct charset_types ->
  headers (response (_render_response tg controller output w).2) !! "Content-Type"
  = Some (ct +:+ "; charset=utf-8").
Proof.
  intros Hnone Hlookup Hcharset Hkind.
  rewrite render_response_response, Hlookup. cbn [fst].
  now apply default_content_type_charset.
Qed.

(** C8. A return value that is not a mapping comes back unchanged as the
    body of the result: the renderer returns at once, without calling the
    template renderer and without touching the testing variables. *)
Theorem render_response_not_mapping (controller : callable) (output : pyobj) (w : world) :
  is_dict output = false ->
  exists result,
    (_render_response tg controller output w).1 = Returns result
    /\ r_response result = output
    /\ log (_render_response tg controller output w).2 = log w
    /\ environ (_render_response tg controller output w).2 = environ w.
Proof.
  intros Hnot. unfold _render_response. unfold_M. cbn.
  destruct (lookup_template_engine _ w) as [[[[ct en] tn] ex] rp]. cbn.
  destruct output; try discriminate; cbn; eexists; repeat split; reflexivity.
Qed.

(** C9. For a mapping, the template renderer is called at most once, and
    the namespace it is called with is the mapping without the keys of the
    exclude-list; the call is made, and its string is the body, on every
    request outside the test harness and on every test request that carries
    its testing variables. *)
Theorem render_response_namespace (controller : callable) (d : params) (w : world)
    (ct engine_name template_name : option string)
    (exclude_names : list string) (render_params : params) :
  lookup_template_engine (decoration_of tg controller) w
  = (ct, engine_name, template_name, exclude_names, render_params) ->
  let namespace := without_keys exclude_names d in
  let call := TgRender namespace engine_name template_name render_params in
  let run := _render_response tg controller (PyDict d) w in
  (log run.2 = log w ++ [call] \/ log run.2 = log w)
  /\ (testing_variables_ok (environ w) ->
      log run.2 = log w ++ [call]
      /\ exists result,
          run.1 = Returns result
          /\ r_response result
             = PyStr (tg_render tg namespace engine_name template_name render_params)).
Proof.
  intros Hlookup namespace call run. subst namespace call run.
  unfold _render_response, expose_testing_variables. unfold_M. cbn.
  rewrite Hlookup. cbn. rewrite pop_all_without_keys.
  destruct (environ w !! "paste.testing") eqn:Ht; cbn.
  - destruct (environ w !! "paste.testing_variables") as [[]|] eqn:Hv; cbn;
      (split; [auto |]); intros [Hno | [tv Htv]]; try congruence.
    split; [reflexivity |]. eexists; split; reflexivity.
  - split; [auto |]. intros _. split; [reflexivity |]. eexists; split; reflexivity.
Qed.

End Renderer.

Lemma render_response_charset_witness :
  content_type (response Demo.fresh_world) = None /\
  headers (response (_render_response Demo.demo Demo.plain (PyStr "body")
                       Demo.fresh_world).2) !! "Content-Type"
  = Some "application/json; charset=utf-8".
Proof.
  split; [reflexivity |].
  apply (render_response_charset Demo.demo Demo.plain (PyStr "body") Demo.fresh_world
           "application/json" (Some "json") None ["y"] ∅);
    [reflexivity | reflexivity | reflexivity | right; simpl; auto].
Defined.

Lemma render_response_not_mapping_witness :
  is_dict (PyStr "body") = false /\
  exists result,
    (_render_response Demo.demo Demo.plain (PyStr "body") Demo.fresh_world).1
    = Returns result
    /\ r_response result = PyStr "body"
    /\ log (_render_response Demo.demo Demo.plain (PyStr "body") Demo.fresh_world).2 = []
    /\ environ (_render_response Demo.demo Demo.plain (PyStr "body") Demo.fresh_world).2
       = ∅.
Proof.
  split; [reflexivity |].
  apply (render_response_not_mapping Demo.demo Demo.plain (PyStr "body") Demo.fresh_world).
  reflexivity.
Defined.

Lemma render_response_namespace_witness :
  without_keys ["y"] xy = <["x" := PyInt 1]> ∅ /\
  testing_variables_ok (environ Demo.fresh_world) /\
  log (_render_response Demo.demo Demo.plain (PyDict xy) Demo.fresh_world).2
  = [TgRender (<["x" := PyInt 1]> ∅) (Some "json") None ∅].
Proof.
  assert (Hns : without_keys ["y"] xy = <["x" := PyInt 1]> ∅).
  { rewrite <- pop_all_without_keys. reflexivity. }
  assert (Hok : testing_variables_ok (environ Demo.fresh_world)) by (left; reflexivity).
  split; [exact Hns | split; [exact Hok |]].
  rewrite <- Hns.
  apply (render_response_namespace Demo.demo Demo.plain xy Demo.fresh_world
           (Some "application/json") (Some "json") None ["y"] ∅ eq_refl).
  exact Hok.
Defined.

(** ** What a computation adds to the log *)

Section Appends.

Context (P : event -> Prop).

Lemma appends_mret {A} (a : A) : appends P (mret a).
Proof. intros w. exists []. now rewrite app_nil_r. Qed.

Lemma appends_raise {A} (e : exn) : appends P (raise e : M A).
Proof. intros w. exists []. now rewrite app_nil_r. Qed.

Lemma appends_get : appends P get.
Proof. intros w. exists []. now rewrite app_nil_r. Qed.

Lemma appends_modify (f : world -> world) :
  (forall w, log (f w) = log w) -> appends P (modify f).
Proof. intros Hf w. exists []. cbn. now rewrite Hf, app_nil_r. Qed.

Lemma appends_emit (e : event) : P e -> appends P (emit e).
Proof. intros He w. exists [e]. split; [reflexivity | now constructor]. Qed.

Lemma appends_bind {A B} (m : M A) (k : A -> M B) :
  appends P m -> (forall a, appends P (k a)) -> appends P (m ≫= k).
Proof.
  intros Hm Hk w. unfold mbind, M_bind.
  destruct (Hm w) as (evs1 & Hlog1 & HP1).
  destruct (m w) as [[a|e|] w1]; cbn in *; try (exists evs1; now split).
  destruct (Hk a w1) as (evs2 & Hlog2 & HP2).
  exists (evs1 ++ evs2). split; [| now apply Forall_app].
  now rewrite Hlog2, Hlog1, app_assoc.
Qed.

Lemma appends_try_validation {A B} (body : M A) (handler : validation_error -> M B)
    (orelse : A -> M B) :
  appends P body -> (forall inv, appends P (handler inv)) ->
  (forall a, appends P (orelse a)) ->
  appends P (try_validation body handler orelse).
Proof.
  intros Hbody Hhandler Horelse w. unfold try_validation.
  destruct (Hbody w) as (evs1 & Hlog1 & HP1).
  destruct (body w) as [[a|[inv| | |]|] w1]; cbn in *; try (exists evs1; now split).
  - destruct (Horelse a w1) as (evs2 & Hlog2 & HP2).
    exists (evs1 ++ evs2). split; [| now apply Forall_app].
    now rewrite Hlog2, Hlog1, app_assoc.
  - destruct (Hhandler inv w1) as (evs2 & Hlog2 & HP2).
    exists (evs1 ++ evs2). split; [| now apply Forall_app].
    now rewrite Hlog2, Hlog1, app_assoc.
Qed.

End Appends.

Lemma appends_weaken {A} (P Q : event -> Prop) (m : M A) :
  (forall e, P e -> Q e) -> appends P m -> appends Q m.
Proof.
  intros HPQ Hm w. destruct (Hm w) as (evs & Hlog & HP).
  exists evs. split; [exact Hlog |]. eapply Forall_impl; eauto.
Qed.

Lemma check_not_validate_step (e : event) : is_check e -> ~ is_validate_step e.
Proof. destruct e; cbn; tauto. Qed.

Section DispatchLog.

Variable tg : Collaborators.

Lemma appends_call_check (v : string) (controller : callable) (p : params) :
  appends is_check (call_check tg v controller p).
Proof.
  intros w. exists [IntentCheck v controller p]. unfold call_check. cbn.
  destruct (check tg v controller p _). cbn. split; [reflexivity |].
  constructor; [exact I | constructor].
Qed.

Lemma appends_perform_validate (controller : callable) (p : params) :
  appends is_check (_perform_validate tg controller p).
Proof.
  unfold _perform_validate.
  assert (Hloop : forall vs q, appends is_check (validate_loop tg controller vs q)).
  { induction vs as [|v vs IH]; intros q; cbn [validate_loop].
    - apply appends_mret.
    - apply appends_bind; [now apply appends_modify |]. intros _.
      apply appends_bind; [apply appends_call_check | exact (IH)]. }
  destruct (validations _); [apply appends_mret | apply Hloop].
Qed.

Lemma appends_process_validation_errors (controller : callable) (r : remainder)
    (p : params) (inv : validation_error) :
  appends is_check (_process_validation_errors tg controller r p inv).
Proof.
  intros w. exists []. rewrite process_validation_errors_world, app_nil_r.
  split; [reflexivity | constructor].
Qed.

(** The chained-validation loop calls nothing but [check]: it neither
    notifies a hook nor merges parameters. *)
Lemma appends_chain_loop (fuel : nat) (validate_params : params) (r : remainder)
    (instance : option string) (error_handler : callable) (chain : bool) (p : params) :
  appends is_check
    (chain_loop tg fuel validate_params r instance error_handler chain p).
Proof.
  revert instance error_handler chain p.
  induction fuel as [|fuel IH]; intros instance error_handler chain p;
    destruct chain; cbn [chain_loop]; try apply appends_mret.
  - intros w. exists []. now rewrite app_nil_r.
  - apply appends_try_validation.
    + apply appends_perform_validate.
    + intros inv. apply appends_bind; [apply appends_process_validation_errors |].
      intros [[i h] c]. apply IH.
    + intros q. apply IH.
Qed.

Lemma appends_render_response (controller : callable) (output : pyobj) :
  appends (fun e => ~ is_validate_step e) (_render_response tg controller output).
Proof.
  intros w. unfold _render_response, expose_testing_variables. unfold_M. cbn.
  destruct (lookup_template_engine (decoration_of tg controller) w)
    as [[[[ct en] tn] ex] rp].
  destruct output as [| | | |d]; cbn;
    try (exists []; rewrite app_nil_r; split; [reflexivity | constructor]).
  destruct (environ w !! "paste.testing"); cbn.
  - destruct (environ w !! "paste.testing_variables") as [[]|]; cbn;
      try (exists []; rewrite app_nil_r; split; [reflexivity | constructor]).
    eexists. split; [reflexivity |]. constructor; [cbn; tauto | constructor].
  - eexists. split; [reflexivity |]. constructor; [cbn; tauto | constructor].
Qed.

Lemma appends_invoke_and_render (action : callable) (f : bound_callable)
    (r : remainder) (p : params) :
  appends (fun e => ~ is_validate_step e) (invoke_and_render tg action f r p).
Proof.
  unfold invoke_and_render.
  apply appends_bind; [apply appends_emit; cbn; discriminate |]. intros _.
  apply appends_bind.
  { intros w. exists [ControllerCaller f r p]. unfold call_controller. cbn.
    destruct (controller_caller _ f r p _). cbn. split; [reflexivity |].
    constructor; [cbn; tauto | constructor]. }
  intros output.
  apply appends_bind; [apply appends_emit; cbn; discriminate |]. intros _.
  apply appends_bind; [apply appends_render_response |]. intros response.
  apply appends_bind; [apply appends_emit; cbn; discriminate |]. intros _.
  apply appends_mret.
Qed.

End DispatchLog.

(** ** The orchestrator *)

Section Orchestrator.

Variable tg : Collaborators.

Lemma log_validation_world (action : callable) (p : params) (r : option remainder)
    (w : world) :
  let r' := map (url2pathname tg) (default [] r) in
  log (validation_world tg action p r w)
  = log w ++ [Notify "before_validate" (ArgsParams r' p) action;
              GetParamsWithArgspec action p r'].
Proof. cbn. now rewrite <- app_assoc. Qed.

Lemma call_phases (fuel : nat) (action : callable) (p : params) (r : option remainder)
    (w : world) :
  let r' := map (url2pathname tg) (default [] r) in
  let validate_params := get_params_with_argspec tg action p r' in
  _call tg fuel action p r w
  = ('(action, f, r, p) ← validation_phase tg fuel action p r' validate_params;
     invoke_and_render tg action f r p) (validation_world tg action p r w).
Proof. reflexivity. Qed.

Lemma appends_validation_phase (fuel : nat) (action : callable) (p : params)
    (r : remainder) (validate_params : params) :
  appends (fun e => ~ is_validate_step e)
    (validation_phase tg fuel action p r validate_params).
Proof.
  unfold validation_phase. apply appends_try_validation.
  - eapply appends_weaken; [apply check_not_validate_step |].
    apply appends_perform_validate.
  - intros inv. eapply appends_weaken; [apply check_not_validate_step |].
    apply appends_bind; [apply appends_process_validation_errors |].
    intros [[i h] c]. apply appends_bind; [apply appends_chain_loop |].
    intros [[i' h'] q]. apply appends_mret.
  - intros q. apply appends_bind; [now apply appends_modify |]. intros _.
    apply appends_bind; [apply appends_emit; cbn; tauto |]. intros _.
    destruct (flatten_arguments tg action q r). apply appends_mret.
Qed.

(** Steps 4 and 5 happen once in a dispatch, for the action it was given:
    whatever the validation phase does, nothing after them is a
    [before_validate] notification or a merge of parameters. *)
Lemma call_validate_steps_once (fuel : nat) (action : callable) (p : params)
    (r : option remainder) (w : world) :
  let r' := map (url2pathname tg) (default [] r) in
  exists evs,
    log (_call tg fuel action p r w).2
    = log w ++ [Notify "before_validate" (ArgsParams r' p) action;
                GetParamsWithArgspec action p r'] ++ evs
    /\ Forall (fun e => ~ is_validate_step e) evs.
Proof.
  intros r'. rewrite call_phases. cbv zeta. fold r'.
  match goal with |- context [(?m ≫= ?k) _] =>
    assert (Happ : appends (fun e => ~ is_validate_step e) (m ≫= k)) end.
  { apply appends_bind; [apply appends_validation_phase |].
    intros [[[a f] r2] p2]. apply appends_invoke_and_render. }
  destruct (Happ (validation_world tg action p r w)) as (evs & Hlog & Hevs).
  exists evs. split; [| exact Hevs].
  rewrite Hlog, log_validation_world. fold r'. now rewrite <- app_assoc.
Qed.

Lemma bind_run {A B} (m : M A) (k : A -> M B) (w : world) :
  (m ≫= k) w =
  match m w with
  | (Returns a, w') => k a w'
  | (Raises e, w') => (Raises e, w')
  | (OutOfFuel, w') => (OutOfFuel, w')
  end.
Proof. reflexivity. Qed.

Lemma log_call_controller (action : callable) (f : bound_callable) (r : remainder)
    (p : params) (w : world) :
  log (call_controller tg action f r p w).2 = log w ++ [ControllerCaller f r p].
Proof. unfold call_controller. cbn. now destruct (controller_caller _ f r p _). Qed.

(** The invocation: the [before_call] hook, then the controller caller with
    the same remainder and parameters. *)
Lemma log_invoke_and_render (action : callable) (f : bound_callable) (r : remainder)
    (p : params) (w : world) :
  exists evs,
    log (invoke_and_render tg action f r p w).2
    = log w ++ [Notify "before_call" (ArgsParams r p) action;
                ControllerCaller f r p] ++ evs.
Proof.
  unfold invoke_and_render. rewrite bind_run. cbn [emit modify]. rewrite bind_run.
  pose proof (log_call_controller action f r p
                (logged (Notify "before_call" (ArgsParams r p) action) w)) as Hcc.
  destruct (call_controller _ _ _ _ _ _) as [[output|e|] w2]; cbn in Hcc;
    try (exists []; cbn; now rewrite Hcc, <- !app_assoc).
  match goal with |- context [log (?m w2).2] =>
    assert (Happ : appends (fun _ => True) m) end.
  { apply appends_bind; [now apply appends_emit |]. intros _.
    apply appends_bind.
    { eapply appends_weaken; [| apply appends_render_response]. auto. }
    intros response. apply appends_bind; [now apply appends_emit |]. intros _.
    apply appends_mret. }
  destruct (Happ w2) as (evs & Hlog & _). exists evs.
  rewrite Hlog, Hcc. now rewrite <- !app_assoc.
Qed.

(** C5. A controller whose decoration has no validations gets its parameter
    mapping back unchanged from [_perform_validate], with no intent recorded
    and no collaborator called; so a dispatch of such a method invokes it on
    the merged parameters as they were, handed through [flatten_arguments]. *)
Theorem perform_validate_no_validations (controller : callable) (p : params) (w : world) :
  validations (decoration_of tg controller) = [] ->
  _perform_validate tg controller p w = (Returns p, w)
  /\ (forall fuel q r w0,
        let r' := map (url2pathname tg) (default [] r) in
        let validate_params := get_params_with_argspec tg controller q r' in
        let args := flatten_arguments tg controller validate_params r' in
        exists evs,
          log (_call tg fuel controller q r w0).2
          = log w0 ++ [Notify "before_validate" (ArgsParams r' q) controller;
                       GetParamsWithArgspec controller q r';
                       FlattenArguments controller validate_params r';
                       Notify "before_call" (ArgsParams args.1 args.2) controller;
                       ControllerCaller (Action controller) args.1 args.2] ++ evs).
Proof.
  intros Hnone.
  assert (Hpass : forall q w0, _perform_validate tg controller q w0 = (Returns q, w0)).
  { intros q w0. unfold _perform_validate. now rewrite Hnone. }
  split; [apply Hpass |].
  intros fuel q r w0 r' validate_params args.
  rewrite call_phases. cbv zeta. fold r'. fold validate_params.
  rewrite bind_run. unfold validation_phase, try_validation. rewrite Hpass.
  rewrite !bind_run. cbn [modify emit]. subst args.
  destruct (flatten_arguments tg controller validate_params r') as [r2 p2]. cbn [fst snd].
  rewrite bind_run. cbn [emit modify mret M_ret].
  match goal with |- context [invoke_and_render tg _ _ _ _ ?w1] =>
    destruct (log_invoke_and_render controller (Action controller) r2 p2 w1)
      as (evs & Hlog) end.
  exists evs. rewrite Hlog. cbn [logged log with_validation].
  rewrite log_validation_world. fold r'. now rewrite <- !app_assoc.
Qed.

(** *** Chained validation *)

Lemma appends_keeps {A} (P : event -> Prop) (m : M A) (e : event) (w : world) :
  appends P m -> In e (log w) -> In e (log (m w).2).
Proof.
  intros Hm Hin. destruct (Hm w) as (evs & -> & _). apply in_or_app. now left.
Qed.

Lemma bind_keeps {A B} (P : event -> Prop) (m : M A) (k : A -> M B) (e : event)
    (w : world) :
  (forall a, appends P (k a)) -> In e (log (m w).2) -> In e (log ((m ≫= k) w).2).
Proof.
  intros Hk Hin. rewrite bind_run. destruct (m w) as [[a|x|] w1]; cbn in *; auto.
  now apply (appends_keeps P).
Qed.

Lemma try_validation_keeps {A B} (P : event -> Prop) (body : M A)
    (handler : validation_error -> M B) (orelse : A -> M B) (e : event) (w : world) :
  (forall inv, appends P (handler inv)) -> (forall a, appends P (orelse a)) ->
  In e (log (body w).2) -> In e (log (try_validation body handler orelse w).2).
Proof.
  intros Hhandler Horelse Hin. unfold try_validation.
  destruct (body w) as [[a|[inv| | |]|] w1]; cbn in *; auto;
    now apply (appends_keeps P).
Qed.

(** One pass of the loop validates the current handler, on the parameters
    it is given; the loop is over when that validation passes, and goes on
    with what the classifier returns when it fails. *)
Lemma chain_loop_pass (n : nat) (validate_params : params) (r : remainder)
    (i : option string) (h : callable) (q : params) (w : world) :
  chain_loop tg (S n) validate_params r i h true q w
  = try_validation (_perform_validate tg h validate_params)
      (fun inv =>
         '(i', h', chain) ← _process_validation_errors tg h r q inv;
         chain_loop tg n validate_params r i' h' chain q)
      (fun q' => mret (i, h, q')) w.
Proof.
  cbn [chain_loop]. unfold try_validation.
  destruct (_perform_validate tg h validate_params w) as [[q'|[inv| | |]|] w1];
    try reflexivity.
  destruct n; reflexivity.
Qed.

Lemma chain_loop_done (n : nat) (validate_params : params) (r : remainder)
    (i : option string) (h : callable) (q : params) (w : world) :
  chain_loop tg n validate_params r i h false q w = (Returns (i, h, q), w).
Proof. destruct n; reflexivity. Qed.

(** C1, as amended.  In a dispatch in which the validation of the target
    method fails and the classifier returns an error handler with chained
    validation, the orchestrator goes on with the validation loop alone: each
    pass runs the validation of the current handler on the parameters that
    were merged for the target method, the loop ends when a pass succeeds or
    when the classifier returns no chaining, and the handler it ends with is
    invoked bound to the instance.  The [before_validate] hook is notified
    once and the parameters are merged once, both for the target method: no
    pass of the loop repeats them. *)
Theorem call_chained_validation (fuel : nat) (action : callable) (p : params)
    (r : option remainder) (w w1 w2 : world) (inv : validation_error)
    (instance : option string) (handler : callable) :
  let r' := map (url2pathname tg) (default [] r) in
  let validate_params := get_params_with_argspec tg action p r' in
  _perform_validate tg action validate_params (validation_world tg action p r w)
  = (Raises (ValidationExn inv), w1) ->
  _process_validation_errors tg action r' p inv w1
  = (Returns (instance, handler, true), w2) ->
  _call tg fuel action p r w
  = ('(i, h, q) ← chain_loop tg fuel validate_params r' instance handler true p;
     invoke_and_render tg h (Partial h i) r' q) w2
  /\ (forall n i h q w3,
        chain_loop tg (S n) validate_params r' i h true q w3
        = try_validation (_perform_validate tg h validate_params)
            (fun inv' =>
               '(i', h', chain) ← _process_validation_errors tg h r' q inv';
               chain_loop tg n validate_params r' i' h' chain q)
            (fun q' => mret (i, h, q')) w3)
  /\ (forall n i h q w3,
        chain_loop tg n validate_params r' i h false q w3 = (Returns (i, h, q), w3))
  /\ (forall n v vs,
        fuel = S n -> validations (decoration_of tg handler) = v :: vs ->
        In (IntentCheck v handler validate_params) (log (_call tg fuel action p r w).2))
  /\ (exists evs,
        log (_call tg fuel action p r w).2
        = log w ++ [Notify "before_validate" (ArgsParams r' p) action;
                    GetParamsWithArgspec action p r'] ++ evs
        /\ Forall (fun e => ~ is_validate_step e) evs).
Proof.
  intros r' validate_params Hfails Hclassified.
  assert (Hcall : _call tg fuel action p r w
    = ('(i, h, q) ← chain_loop tg fuel validate_params r' instance handler true p;
       invoke_and_render tg h (Partial h i) r' q) w2).
  { rewrite call_phases. cbv zeta. fold r'. fold validate_params.
    rewrite !bind_run. unfold validation_phase, try_validation. rewrite Hfails.
    rewrite bind_run, Hclassified, bind_run.
    destruct (chain_loop tg fuel _ _ _ _ _ _ _) as [[[[i h] q]|e|] w3]; reflexivity. }
  split; [exact Hcall |].
  split; [intros; apply chain_loop_pass |].
  split; [intros; apply chain_loop_done |].
  split; [| apply call_validate_steps_once].
  intros n v vs -> Hvs. rewrite Hcall.
  apply (bind_keeps (fun e => ~ is_validate_step e)).
  { intros [[i h] q]. apply appends_invoke_and_render. }
  rewrite chain_loop_pass. apply (try_validation_keeps is_check).
  { intros inv'. apply appends_bind; [apply appends_process_validation_errors |].
    intros [[i h] c]. apply appends_chain_loop. }
  { intros q. apply appends_mret. }
  unfold _perform_validate. rewrite Hvs.
  destruct (validate_loop_log tg handler (v :: vs) validate_params w2)
    as (inputs & Hlog & _ & Hhead & _).
  rewrite Hlog. apply in_or_app. right.
  specialize (Hhead v vs eq_refl). destruct inputs as [|q inputs]; [discriminate |].
  injection Hhead as ->. now left.
Qed.

End Orchestrator.

Lemma perform_validate_no_validations_witness :
  validations (decoration_of Demo.demo Demo.plain) = [] /\
  _perform_validate Demo.demo Demo.plain (<["id" := PyInt 7]> ∅) Demo.fresh_world
  = (Returns (<["id" := PyInt 7]> ∅), Demo.fresh_world).
Proof.
  split; [reflexivity |].
  apply (perform_validate_no_validations Demo.demo Demo.plain). reflexivity.
Defined.

Lemma perform_validate_threads_witness :
  validations (decoration_of Demo.demo Demo.two) <> [] /\
  _perform_validate Demo.demo Demo.two ∅ Demo.fresh_world
  = call_check Demo.demo "b" Demo.two (<["checked" := PyStr "a"]> ∅)
      (with_validation (set_intent "b")
         (validate_loop Demo.demo Demo.two ["a"] ∅ Demo.fresh_world).2).
Proof.
  assert (Hne : validations (decoration_of Demo.demo Demo.two) <> []) by discriminate.
  split; [exact Hne |].
  apply (proj2 (proj2 (perform_validate_threads Demo.demo Demo.two ∅ Demo.fresh_world Hne))
           ["a"]); reflexivity.
Defined.

(** The threaded run itself: ["a"] sees the incoming parameters, ["b"] sees
    what ["a"] returned, and the result is what ["b"] returned. *)
Example perform_validate_two :
  (_perform_validate Demo.demo Demo.two (<["id" := PyInt 7]> ∅) Demo.fresh_world).1
  = Returns (<["checked" := PyStr "b"]> (<["id" := PyInt 7]> ∅))
  /\ log (_perform_validate Demo.demo Demo.two (<["id" := PyInt 7]> ∅) Demo.fresh_world).2
     = [IntentCheck "a" Demo.two (<["id" := PyInt 7]> ∅);
        IntentCheck "b" Demo.two (<["checked" := PyStr "a"]> (<["id" := PyInt 7]> ∅))].
Proof. split; reflexivity. Qed.

(** *** A dispatch with chained validation, run *)

Lemma chained_dispatch_log :
  log chained_dispatch.2 =
  [Notify "before_validate" (ArgsParams [] ∅) Demo.index;
   GetParamsWithArgspec Demo.index ∅ [];
   IntentCheck "v" Demo.index ∅;
   IntentCheck "hv" Demo.on_error ∅;
   Notify "before_call" (ArgsParams [] (<["checked" := PyStr "hv"]> ∅)) Demo.on_error;
   ControllerCaller (Partial Demo.on_error (Some "root")) []
     (<["checked" := PyStr "hv"]> ∅);
   Notify "before_render"
     (ArgsOutput [] (<["checked" := PyStr "hv"]> ∅)
        (PyDict (<["checked" := PyStr "hv"]> ∅))) Demo.on_error;
   TgRender (<["checked" := PyStr "hv"]> ∅) (Some "json") None ∅;
   Notify "after_render"
     (ArgsResponse {| r_response := PyStr "rendered";
                      r_content_type := Some "application/json";
                      r_engine_name := Some "json"; r_template_name := None |})
     Demo.on_error].
Proof. reflexivity. Qed.

(** C1, counterexample: in the dispatch of [Demo.index] the validation
    fails, the classifier returns [on_error] with chained validation, and
    the handler is validated; but no [before_validate] notification and no
    merge is made for the handler: the only ones in the log are those made
    for [Demo.index] before its validation. *)
Lemma chained_validation_skips_steps_4_and_5 :
  (exists inv w1,
      _perform_validate Demo.demo Demo.index ∅
        (validation_world Demo.demo Demo.index ∅ None Demo.fresh_world)
      = (Raises (ValidationExn inv), w1)
      /\ (_process_validation_errors Demo.demo Demo.index [] ∅ inv w1).1
         = Returns (Some "root", Demo.on_error, true))
  /\ In (IntentCheck "hv" Demo.on_error ∅) (log chained_dispatch.2)
  /\ (forall e, In e (log chained_dispatch.2) -> is_validate_step e ->
      e = Notify "before_validate" (ArgsParams [] ∅) Demo.index
      \/ e = GetParamsWithArgspec Demo.index ∅ [])
  /\ ~ repeats_steps_4_to_6 Demo.on_error (log chained_dispatch.2).
Proof.
  split; [| split; [| split]].
  - eexists. eexists. split; reflexivity.
  - rewrite chained_dispatch_log. cbn. tauto.
  - rewrite chained_dispatch_log. intros e Hin Hstep. cbn in Hin.
    repeat (destruct Hin as [<- | Hin]; [cbn in Hstep; auto; try discriminate Hstep;
                                         try contradiction |]).
    contradiction.
  - rewrite chained_dispatch_log. intros [[r [p Hin]] _]. cbn in Hin.
    repeat (destruct Hin as [Hin | Hin]; [discriminate Hin |]). exact Hin.
Qed.

Lemma call_chained_validation_witness :
  _perform_validate Demo.demo Demo.index ∅ chained_w0
  = (Raises (ValidationExn chained_inv), chained_w1)
  /\ _process_validation_errors Demo.demo Demo.index [] ∅ chained_inv chained_w1
     = (Returns (Some "root", Demo.on_error, true), chained_w2)
  /\ In (IntentCheck "hv" Demo.on_error ∅)
       (log (_call Demo.demo 3 Demo.index ∅ None Demo.fresh_world).2).
Proof.
  assert (H1 : _perform_validate Demo.demo Demo.index ∅ chained_w0
               = (Raises (ValidationExn chained_inv), chained_w1)) by reflexivity.
  assert (H2 : _process_validation_errors Demo.demo Demo.index [] ∅ chained_inv chained_w1
               = (Returns (Some "root", Demo.on_error, true), chained_w2))
    by reflexivity.
  split; [exact H1 | split; [exact H2 |]].
  apply (proj1 (proj2 (proj2 (proj2
    (call_chained_validation Demo.demo 3 Demo.index ∅ None Demo.fresh_world
       chained_w1 chained_w2 chained_inv (Some "root") Demo.on_error H1 H2)))) 2 "hv" []);
    reflexivity.
Defined.

(** *** Termination of the loop

    The loop ends only if some pass succeeds or some classification stops
    the chaining.  More fuel never changes a result that was reached, and a
    handler that fails and chains to itself exhausts any fuel. *)

Lemma chain_loop_more_fuel (tg : Collaborators) (n : nat) (validate_params : params)
    (r : remainder) (i : option string) (h : callable) (chain : bool) (q : params)
    (w : world) :
  (chain_loop tg n validate_params r i h chain q w).1 <> OutOfFuel ->
  chain_loop tg (S n) validate_params r i h chain q w
  = chain_loop tg n validate_params r i h chain q w.
Proof.
  revert i h chain q w. induction n as [|n IH]; intros i h chain q w Hdone.
  - destruct chain; [now cbn in Hdone | reflexivity].
  - destruct chain; [| reflexivity].
    rewrite (chain_loop_pass tg (S n)), (chain_loop_pass tg n).
    rewrite (chain_loop_pass tg n) in Hdone.
    unfold try_validation in *.
    destruct (_perform_validate tg h validate_params w) as [[q'|[inv| | |]|] w1];
      try reflexivity.
    rewrite !bind_run. rewrite bind_run in Hdone.
    destruct (_process_validation_errors tg h r q inv w1) as [[[[i' h'] c']|e|] w2];
      try reflexivity.
    now apply IH.
Qed.

Lemma retry_exhausts_fuel (fuel : nat) (validate_params : params) (r : remainder)
    (i : option string) (q : params) (w : world) :
  (chain_loop Demo.demo fuel validate_params r i Demo.retry true q w).1 = OutOfFuel.
Proof.
  revert i w. induction fuel as [|fuel IH]; intros i w; [reflexivity |].
  rewrite chain_loop_pass. unfold try_validation.
  change (_perform_validate Demo.demo Demo.retry validate_params w)
    with (Raises (ValidationExn (Invalid "again" None)) : outcome params,
          with_validation (fun _ => Demo.retrying_status (set_intent "again" (validation w)))
            (logged (IntentCheck "again" Demo.retry validate_params)
               (with_validation (set_intent "again") w))).
  cbv beta iota. rewrite bind_run.
  match goal with |- context [_process_validation_errors _ _ _ _ ?e ?w1] =>
    change (_process_validation_errors Demo.demo Demo.retry r q e w1)
      with (Returns (@None string, Demo.retry, true),
            with_validation (fun st => populate_status Demo.demo e (set_exception e st)) w1)
  end.
  cbv beta iota. apply IH.
Qed.

(** A dispatch whose error handler fails and chains to itself does not
    return, whatever the fuel. *)
Example self_chaining_handler_diverges (fuel : nat) :
  (_call Demo.demo fuel Demo.retry ∅ None Demo.fresh_world).1 = OutOfFuel.
Proof.
  rewrite call_phases. cbv zeta. rewrite bind_run.
  unfold validation_phase, try_validation.
  match goal with |- context [_perform_validate _ _ ?vp ?w] =>
    change (_perform_validate Demo.demo Demo.retry vp w)
      with (Raises (ValidationExn (Invalid "again" None)) : outcome params,
            with_validation
              (fun _ => Demo.retrying_status (set_intent "again" (validation w)))
              (logged (IntentCheck "again" Demo.retry vp)
                 (with_validation (set_intent "again") w)))
  end.
  cbv beta iota. rewrite bind_run.
  match goal with |- context [_process_validation_errors _ _ ?r ?q ?e ?w1] =>
    change (_process_validation_errors Demo.demo Demo.retry r q e w1)
      with (Returns (@None string, Demo.retry, true),
            with_validation (fun st => populate_status Demo.demo e (set_exception e st)) w1)
  end.
  cbv beta iota. rewrite bind_run.
  match goal with |- context [chain_loop _ fuel ?vp ?r ?i _ _ ?q ?w] =>
    pose proof (retry_exhausts_fuel fuel vp r i q w) as Hloop;
    destruct (chain_loop Demo.demo fuel vp r i Demo.retry true q w) as [[x|e|] w'] end;
    cbn in Hloop; try discriminate Hloop.
  reflexivity.
Qed.

(** ** The security checker *)

Section Security.

Variable tg : Collaborators.

(** C4, as amended.  When a bare predicate on [allow_only] fails and the
    controller has no [_failed_authorization] hook, or has one that returns,
    the checker sets the response status to 403 and flashes the reason with
    severity ["error"] if the requester is known not to be anonymous, and
    otherwise sets 401 and flashes with severity ["warning"]; it then aborts
    with that code and the reason as comment.  When the controller has a
    [_failed_authorization] hook and the hook raises, the check ends there,
    with the exception of the hook and in the state the hook left: the
    checker sets no status, flashes nothing and does not abort. *)
Theorem check_security_denies (self : controller_instance) (check_authorization : M unit)
    (reason : string) (w w1 : world) :
  allow_only self = Some (Predicate check_authorization) ->
  check_authorization w = (Raises (NotAuthorizedError reason), w1) ->
  (forall w2,
      match _failed_authorization self with
      | None => w2 = w1
      | Some hook =>
          hook reason (logged (FailedAuthorization reason) w1) = (Returns tt, w2)
      end ->
      let known := not_anonymous_is_met tg (environ w2) in
      let code := if known then 403%Z else 401%Z in
      let severity := if known then "error" else "warning" in
      exists w3,
        _check_security tg self w = (Raises (HTTPException code reason), w3)
        /\ status (response w3) = Some code
        /\ headers (response w3) = headers (response w2)
        /\ log w3 = log w2 ++ [Flash reason severity; Abort code reason])
  /\ (forall hook e w2,
      _failed_authorization self = Some hook ->
      hook reason (logged (FailedAuthorization reason) w1) = (Raises e, w2) ->
      _check_security tg self w = (Raises e, w2)).
Proof.
  intros Hallow Hfails. split.
  - intros w2 Hhook known code severity.
    unfold _check_security. rewrite Hallow. unfold try_not_authorized.
    rewrite bind_run, Hfails. rewrite bind_run.
    assert (Hafter :
      (match _failed_authorization self with
       | Some hook => emit (FailedAuthorization reason);; hook reason
       | None => mret tt
       end) w1 = (Returns tt, w2)).
    { destruct (_failed_authorization self) as [hook|].
      - rewrite bind_run. cbn [emit modify]. exact Hhook.
      - now subst w2. }
    rewrite Hafter. rewrite bind_run. cbn [get].
    subst known code severity.
    destruct (not_anonymous_is_met tg (environ w2)); cbn;
      eexists; repeat split; cbn; now rewrite <- app_assoc.
  - intros hook e w2 Hhook Hraises.
    unfold _check_security. rewrite Hallow. unfold try_not_authorized.
    rewrite bind_run, Hfails. rewrite bind_run, Hhook. cbv beta iota.
    rewrite bind_run. cbn [emit modify]. now rewrite Hraises.
Qed.

End Security.

Lemma check_security_denies_witness :
  allow_only guarded = Some (Predicate members_only) /\
  allow_only guarded_redirecting = Some (Predicate members_only) /\
  members_only Demo.fresh_world
  = (Raises (NotAuthorizedError "members only"), Demo.fresh_world) /\
  (exists w3,
      _check_security Demo.demo guarded Demo.fresh_world
      = (Raises (HTTPException 401 "members only"), w3)
      /\ status (response w3) = Some 401%Z
      /\ headers (response w3) = headers (response Demo.fresh_world)
      /\ log w3 = log Demo.fresh_world
                  ++ [Flash "members only" "warning"; Abort 401 "members only"]) /\
  _check_security Demo.demo guarded_redirecting Demo.fresh_world
  = (Raises (HTTPException 302 "/login"),
     logged (FailedAuthorization "members only") Demo.fresh_world).
Proof.
  split; [reflexivity | split; [reflexivity | split; [reflexivity | split]]].
  - apply (proj1 (check_security_denies Demo.demo guarded members_only "members only"
                    Demo.fresh_world Demo.fresh_world eq_refl eq_refl)
             Demo.fresh_world).
    reflexivity.
  - apply (proj2 (check_security_denies Demo.demo guarded_redirecting members_only
                    "members only" Demo.fresh_world Demo.fresh_world eq_refl eq_refl)
             (fun _ => raise (HTTPException 302 "/login")));
      reflexivity.
Defined.

(** C4, counterexample: the predicate of [guarded_redirecting] fails, its
    hook raises, and the checker ends there: the status is not set, nothing
    is flashed, and the request is not aborted with 401. *)
Lemma check_security_hook_short_circuits :
  members_only Demo.fresh_world
  = (Raises (NotAuthorizedError "members only"), Demo.fresh_world)
  /\ (_check_security Demo.demo guarded_redirecting Demo.fresh_world).1
     = Raises (HTTPException 302 "/login")
  /\ status (response (_check_security Demo.demo guarded_redirecting Demo.fresh_world).2)
     = None
  /\ log (_check_security Demo.demo guarded_redirecting Demo.fresh_world).2
     = [FailedAuthorization "members only"]
  /\ ~ sets_status_flashes_and_aborts Demo.demo guarded_redirecting "members only"
        Demo.fresh_world.
Proof.
  repeat split; try reflexivity.
  intros (Hstatus & _). cbn in Hstatus. discriminate Hstatus.
Qed.

(** * Further properties *)

(** ** Frames *)

Section Frames.

Context {X : Type} (f : world -> X).

Lemma preserves_mret {A} (a : A) : preserves f (mret a).
Proof. intros w. reflexivity. Qed.

Lemma preserves_modify (g : world -> world) :
  (forall w, f (g w) = f w) -> preserves f (modify g).
Proof. intros Hg w. apply Hg. Qed.

Lemma preserves_bind {A B} (m : M A) (k : A -> M B) :
  preserves f m -> (forall a, preserves f (k a)) -> preserves f (m ≫= k).
Proof.
  intros Hm Hk w. rewrite bind_run. specialize (Hm w).
  destruct (m w) as [[a|e|] w1]; cbn in *; try exact Hm.
  now rewrite Hk.
Qed.

Lemma preserves_try_validation {A B} (body : M A) (handler : validation_error -> M B)
    (orelse : A -> M B) :
  preserves f body -> (forall inv, preserves f (handler inv)) ->
  (forall a, preserves f (orelse a)) ->
  preserves f (try_validation body handler orelse).
Proof.
  intros Hbody Hhandler Horelse w. unfold try_validation. specialize (Hbody w).
  destruct (body w) as [[a|[inv| | |]|] w1]; cbn in *; try exact Hbody.
  - now rewrite Horelse.
  - now rewrite Hhandler.
Qed.

Variable tg : Collaborators.

(** What the validation runner, the classifier and the loop leave alone:
    every part of the world that is neither the status nor the log. *)
Hypothesis f_validation : forall g w, f (with_validation g w) = f w.
Hypothesis f_logged : forall e w, f (logged e w) = f w.

Lemma preserves_perform_validate (controller : callable) (p : params) :
  preserves f (_perform_validate tg controller p).
Proof.
  unfold _perform_validate.
  assert (Hloop : forall vs q, preserves f (validate_loop tg controller vs q)).
  { induction vs as [|v vs IH]; intros q; cbn [validate_loop].
    - apply preserves_mret.
    - apply preserves_bind; [apply preserves_modify; intros; apply f_validation |].
      intros _. apply preserves_bind; [| exact IH].
      intros w. unfold call_check. cbn.
      destruct (check tg v controller q _). cbn.
      now rewrite f_validation, f_logged. }
  destruct (validations _); [apply preserves_mret | apply Hloop].
Qed.

Lemma preserves_process_validation_errors (controller : callable) (r : remainder)
    (p : params) (inv : validation_error) :
  preserves f (_process_validation_errors tg controller r p inv).
Proof. intros w. now rewrite process_validation_errors_world, f_validation. Qed.

Lemma preserves_chain_loop (fuel : nat) (validate_params : params) (r : remainder)
    (instance : option string) (error_handler : callable) (chain : bool) (p : params) :
  preserves f (chain_loop tg fuel validate_params r instance error_handler chain p).
Proof.
  revert instance error_handler chain p.
  induction fuel as [|fuel IH]; intros instance error_handler chain p;
    destruct chain; cbn [chain_loop]; try apply preserves_mret.
  - intros w. reflexivity.
  - apply preserves_try_validation.
    + apply preserves_perform_validate.
    + intros inv. apply preserves_bind; [apply preserves_process_validation_errors |].
      intros [[i h] c]. apply IH.
    + intros q. apply IH.
Qed.

Lemma preserves_validation_phase (fuel : nat) (action : callable) (p : params)
    (r : remainder) (validate_params : params) :
  preserves f (validation_phase tg fuel action p r validate_params).
Proof.
  unfold validation_phase. apply preserves_try_validation.
  - apply preserves_perform_validate.
  - intros inv. apply preserves_bind; [apply preserves_process_validation_errors |].
    intros [[i h] c]. apply preserves_bind; [apply preserves_chain_loop |].
    intros [[i' h'] q]. apply preserves_mret.
  - intros q. apply preserves_bind; [apply preserves_modify; intros; apply f_validation |].
    intros _. apply preserves_bind; [apply preserves_modify; intros; apply f_logged |].
    intros _. destruct (flatten_arguments tg action q r). apply preserves_mret.
Qed.

End Frames.

Section InvocationFrames.

Context {X : Type} (f : world -> X) (tg : Collaborators).

(** What the invocation and the renderer leave alone: every part of the
    world that is neither the response, the environ nor the log. *)
Hypothesis f_response : forall g w, f (with_response g w) = f w.
Hypothesis f_environ : forall g w, f (with_environ g w) = f w.
Hypothesis f_logged : forall e w, f (logged e w) = f w.

Lemma preserves_render_response (controller : callable) (output : pyobj) :
  preserves f (_render_response tg controller output).
Proof.
  intros w. unfold _render_response, expose_testing_variables. unfold_M. cbn.
  destruct (lookup_template_engine (decoration_of tg controller) w)
    as [[[[ct en] tn] ex] rp].
  destruct output as [| | | |d]; cbn; try apply f_response.
  destruct (environ w !! "paste.testing"); cbn.
  - destruct (environ w !! "paste.testing_variables") as [[]|]; cbn;
      try apply f_response.
    now rewrite f_logged, f_environ, f_response.
  - now rewrite f_logged, f_response.
Qed.

Lemma preserves_invoke_and_render (action : callable) (b : bound_callable)
    (r : remainder) (p : params) :
  preserves f (invoke_and_render tg action b r p).
Proof.
  unfold invoke_and_render.
  apply preserves_bind; [apply preserves_modify; intros; apply f_logged |]. intros _.
  apply preserves_bind.
  { intros w. unfold call_controller. cbn.
    destruct (controller_caller _ b r p _). cbn. now rewrite f_response, f_logged. }
  intros output.
  apply preserves_bind; [apply preserves_modify; intros; apply f_logged |]. intros _.
  apply preserves_bind; [apply preserves_render_response |]. intros response.
  apply preserves_bind; [apply preserves_modify; intros; apply f_logged |]. intros _.
  apply preserves_mret.
Qed.

End InvocationFrames.

(** ** The validation runner, further *)

Section ValidationRunnerFurther.

Variable tg : Collaborators.

(** X1. The runner stops at the first intent that raises: when the intents
    before [v] pass and the [check] of [v] raises, [_perform_validate] raises
    the same exception, the status is the one that [check] left, and the
    calls made are the checks of the intents up to [v], and none after it. *)
Theorem perform_validate_stops_at_failure (controller : callable) (p : params)
    (w : world) (before after : list string) (v : string) (pk : params) (wk : world)
    (e : exn) (st : ValidationStatus) :
  validations (decoration_of tg controller) = before ++ v :: after ->
  validate_loop tg controller before p w = (Returns pk, wk) ->
  check tg v controller pk (set_intent v (validation wk)) = (Raises e, st) ->
  (_perform_validate tg controller p w).1 = Raises e
  /\ validation (_perform_validate tg controller p w).2 = st
  /\ exists inputs : list params,
      length inputs = length before
      /\ log (_perform_validate tg controller p w).2
         = log w ++ zip_with (fun v pin => IntentCheck v controller pin) before inputs
                 ++ [IntentCheck v controller pk].
Proof.
  intros Hvs Hbefore Hcheck.
  assert (Hrun : _perform_validate tg controller p w
                 = validate_loop tg controller (v :: after) pk wk).
  { assert (Hloop : _perform_validate tg controller p w
                     = validate_loop tg controller (before ++ v :: after) p w).
    { unfold _perform_validate. rewrite Hvs. destruct before; reflexivity. }
    now rewrite Hloop, validate_loop_app, Hbefore. }
  rewrite Hrun. cbn [validate_loop]. rewrite !bind_run. cbn [modify].
  unfold call_check. cbn [emit modify snd logged with_validation validation].
  rewrite !bind_run. cbv beta. cbn [with_validation validation].
  rewrite Hcheck. cbn.
  repeat split.
  destruct (validate_loop_log tg controller before p w) as (inputs & Hlog & _ & _ & Hret).
  rewrite Hbefore in Hlog, Hret. cbn in Hlog.
  exists inputs. split; [eapply Hret; reflexivity |].
  now rewrite Hlog, <- app_assoc.
Qed.

(** The runner changes nothing but the validation status and the log of
    calls. *)
Lemma perform_validate_frame (controller : callable) (p : params) (w : world) :
  response (_perform_validate tg controller p w).2 = response w
  /\ environ (_perform_validate tg controller p w).2 = environ w
  /\ args_params (_perform_validate tg controller p w).2 = args_params w.
Proof.
  repeat split.
  - now apply (preserves_perform_validate response tg).
  - now apply (preserves_perform_validate environ tg).
  - now apply (preserves_perform_validate args_params tg).
Qed.

End ValidationRunnerFurther.

Lemma perform_validate_stops_at_failure_witness :
  validations (decoration_of Shop.shop Shop.checkout) = ["trim"] ++ "age" :: ["never"]
  /\ (_perform_validate Shop.shop Shop.checkout ∅ Demo.fresh_world).1
     = Raises (ValidationExn
                 (Invalid "age: not a number" (Some (PyDict (<["trimmed" := PyInt 1]> ∅)))))
  /\ error_handler (validation (_perform_validate Shop.shop Shop.checkout ∅
                                  Demo.fresh_world).2) = Some Shop.form.
Proof.
  split; [reflexivity |].
  destruct (perform_validate_stops_at_failure Shop.shop Shop.checkout ∅ Demo.fresh_world
              ["trim"] ["never"] "age" (<["trimmed" := PyInt 1]> ∅)
              (validate_loop Shop.shop Shop.checkout ["trim"] ∅ Demo.fresh_world).2
              (ValidationExn
                 (Invalid "age: not a number" (Some (PyDict (<["trimmed" := PyInt 1]> ∅)))))
              (Shop.rejected (set_intent "age" (set_intent "trim" new_ValidationStatus)))
              eq_refl eq_refl eq_refl) as (Hraises & Hstatus & _).
  split; [exact Hraises |]. now rewrite Hstatus.
Defined.

(** ** The error classifier, further *)

(** [dict(pairs)], key by key: the last pair with the key gives the value. *)
Lemma foldl_insert_lookup {V} (pairs : list (string * V)) (d : gmap string V) (k : string) :
  foldl (fun d kv => <[kv.1 := kv.2]> d) d pairs !! k =
  match last (omap (fun kv : string * V =>
                      if decide (kv.1 = k) then Some kv.2 else None) pairs) with
  | Some x => Some x
  | None => d !! k
  end.
Proof.
  induction pairs as [|kv pairs IH] using rev_ind; [reflexivity |].
  rewrite foldl_app. cbn [foldl]. rewrite omap_app. simpl (omap _ [kv]).
  case_decide as Heq.
  - now rewrite last_snoc, Heq, lookup_insert_eq.
  - rewrite app_nil_r, lookup_insert_ne by done. exact IH.
Qed.

Lemma split_not_nil (sep : ascii) (s : string) : Str.split sep s <> [].
Proof.
  destruct s as [|c s]; cbn; [discriminate |].
  destruct (Ascii.eqb c sep); [discriminate |].
  destruct (Str.split sep s); discriminate.
Qed.

(** A line feed at the end of a message opens one more, empty, line. *)
Lemma split_trailing (sep : ascii) (s : string) :
  Str.split sep (s +:+ String sep EmptyString) = Str.split sep s ++ [EmptyString].
Proof.
  induction s as [|c s IH]; simpl.
  - now rewrite Ascii.eqb_refl.
  - destruct (Ascii.eqb c sep); [now rewrite IH |].
    rewrite IH. pose proof (split_not_nil sep s) as Hne.
    destruct (Str.split sep s); [congruence | reflexivity].
Qed.

Lemma last_message_snoc (lines : list string) (line : string) :
  last_message (line_entry line).1 (lines ++ [line]) = Some (line_entry line).2.
Proof.
  unfold last_message. rewrite omap_app. simpl (omap _ [line]).
  case_decide; [apply last_snoc | congruence].
Qed.

(** [split(':', 1)] on a field without a colon, followed by a colon. *)
Lemma split_max1_field (k m : string) :
  ~ In COLON (list_ascii_of_string k) ->
  Str.split_max1 COLON (k +:+ String COLON m) = [k; m].
Proof.
  induction k as [|c k IH]; intros Hk; simpl.
  - reflexivity.
  - cbn in Hk. assert (Ascii.eqb c COLON = false) as ->.
    { apply Ascii.eqb_neq. intros ->. apply Hk. now left. }
    rewrite IH; [reflexivity |]. intros Hin. apply Hk. now right.
Qed.

(** *** Stripping *)

Lemma rstrip_idempotent (s : string) : Str.rstrip (Str.rstrip s) = Str.rstrip s.
Proof.
  induction s as [|c s IH]; [reflexivity |]. cbn.
  destruct (Str.rstrip s) as [|d r] eqn:Hr.
  - destruct (Str.isspace c) eqn:Hc; [reflexivity |]. cbn. now rewrite Hc.
  - change (Str.rstrip (String c (String d r)))
      with (match Str.rstrip (String d r) with
            | EmptyString => if Str.isspace c then EmptyString else String c EmptyString
            | r' => String c r'
            end).
    now rewrite IH.
Qed.

Lemma lstrip_head (s : string) :
  Str.lstrip s = EmptyString
  \/ exists c t, Str.lstrip s = String c t /\ Str.isspace c = false.
Proof.
  induction s as [|c s IH]; [now left |]. cbn.
  destruct (Str.isspace c) eqn:Hc; [exact IH |]. right. now exists c, s.
Qed.

Lemma rstrip_keeps_head (c : ascii) (t : string) :
  Str.isspace c = false -> exists t', Str.rstrip (String c t) = String c t'.
Proof.
  intros Hc. cbn. destruct (Str.rstrip t); [rewrite Hc |]; eauto.
Qed.

(** A stripped string has no white space left at either end. *)
Lemma strip_stripped (s : string) :
  Str.lstrip (Str.strip s) = Str.strip s /\ Str.rstrip (Str.strip s) = Str.strip s.
Proof.
  unfold Str.strip. split; [| apply rstrip_idempotent].
  destruct (lstrip_head s) as [-> | (c & t & -> & Hc)]; [reflexivity |].
  destruct (rstrip_keeps_head c t Hc) as [t' ->]. cbn. now rewrite Hc.
Qed.

Section ClassifierFurther.

Variable tg : Collaborators.

(** X2. For a widget failure the error map holds, for every compound key,
    the message of the last child that carries the key, and nothing for a
    key that no child carries; the values are the value of the root widget's
    child. *)
Theorem widget_failure_error_map (controller : callable) (widget_child : tw2widget)
    (w : world) (k : string) :
  errors_after tg controller (Tw2ValidationError widget_child) w !! k
  = last (omap (fun child =>
                  if decide (tw2_compound_key child = k)
                  then Some (tw2_error_msg child) else None)
               (_navigate_tw2form_children tg widget_child))
  /\ values (validation (_process_validation_errors tg controller [] ∅
                           (Tw2ValidationError widget_child) w).2)
     = tw2_value widget_child.
Proof.
  split.
  - unfold errors_after. rewrite process_validation_errors_world. cbn.
    unfold dict_of. rewrite foldl_insert_lookup, lookup_empty.
    induction (_navigate_tw2form_children tg widget_child) as [|child l IH] using rev_ind;
      [reflexivity |].
    rewrite map_app, !omap_app. cbn. case_decide.
    + now rewrite !last_snoc.
    + rewrite !app_nil_r. exact IH.
  - now rewrite process_validation_errors_world.
Qed.

(** X3. A text failure never leaves the error map empty: even the empty
    message is a line, and a line without a colon is a whole-form error; the
    empty message records [_the_form] with the empty message. *)
Theorem text_failure_never_empty (controller : callable) (str : string)
    (value : option pyobj) (w : world) :
  errors_after tg controller (Invalid str value) w <> ∅
  /\ errors_after tg controller (Invalid EmptyString value) w !! "_the_form"
     = Some (PyStr EmptyString).
Proof.
  split.
  - rewrite errors_after_text. intros Hempty.
    destruct (exists_last (split_not_nil LF str)) as (lines & line & Hlines).
    apply (f_equal (fun m => m !! (line_entry line).1)) in Hempty.
    rewrite foldl_record_error_lookup, Hlines, last_message_snoc, lookup_empty in Hempty.
    discriminate.
  - rewrite errors_after_text, foldl_record_error_lookup. reflexivity.
Qed.

(** X4. A message that ends in a line feed records a whole-form error with
    the empty message, whatever its lines say: the text after the last
    line feed is a line of its own. *)
Theorem text_failure_trailing_line_feed (controller : callable) (str : string)
    (value : option pyobj) (w : world) :
  errors_after tg controller (Invalid (str +:+ nl) value) w !! "_the_form"
  = Some (PyStr EmptyString).
Proof.
  rewrite errors_after_text, foldl_record_error_lookup.
  unfold nl. rewrite split_trailing.
  pose proof (last_message_snoc (Str.split LF str) EmptyString) as Hlast.
  change (line_entry EmptyString) with ("_the_form", EmptyString) in Hlast.
  cbn [fst snd] in Hlast. now rewrite Hlast.
Qed.

(** X5. Only the first colon of a line separates the field from the
    message: for a field [k] without a colon, the line [k:m] is recorded
    under the stripped [k] with the stripped [m], colons of [m] included. *)
Theorem record_error_first_colon (errs : gmap string pyobj) (k m : string) :
  ~ In COLON (list_ascii_of_string k) ->
  record_error errs (k +:+ String COLON m)
  = <[strip_string k := PyStr (strip_string m)]> errs.
Proof.
  intros Hk. unfold record_error. now rewrite split_max1_field.
Qed.

(** X6. Classifying the same text failure a second time changes nothing in
    the error map. *)
Theorem text_failure_idempotent (c1 c2 : callable) (str : string)
    (value1 value2 : option pyobj) (w : world) :
  errors_after tg c2 (Invalid str value2)
    (_process_validation_errors tg c1 [] ∅ (Invalid str value1) w).2
  = errors_after tg c1 (Invalid str value1) w.
Proof.
  apply map_eq. intros k.
  rewrite (errors_after_text tg c2), foldl_record_error_lookup.
  fold (errors_after tg c1 (Invalid str value1) w).
  destruct (last_message k (Str.split LF str)) as [m|] eqn:Hk; [| reflexivity].
  now rewrite errors_after_text, foldl_record_error_lookup, Hk.
Qed.

(** X7. Every line of a text failure is recorded under a key and with a
    message that have no white space at either end. *)
Theorem record_error_stripped (errs : gmap string pyobj) (line : string) :
  exists k m,
    record_error errs line = <[k := PyStr m]> errs
    /\ Str.lstrip k = k /\ Str.rstrip k = k
    /\ Str.lstrip m = m /\ Str.rstrip m = m.
Proof.
  unfold record_error. rewrite split_max1_index.
  destruct (String.index 0 ":" line) as [i|]; cbn [map].
  - eexists. eexists. split; [reflexivity |]. unfold strip_string.
    repeat split; apply strip_stripped.
  - exists "_the_form". eexists. split; [reflexivity |]. unfold strip_string.
    repeat split; try reflexivity; apply strip_stripped.
Qed.

End ClassifierFurther.

Lemma record_error_first_colon_witness :
  ~ In COLON (list_ascii_of_string "when") /\
  record_error ∅ ("when" +:+ String COLON " 12:30 is taken")
  = <["when" := PyStr "12:30 is taken"]> ∅.
Proof.
  assert (Hk : ~ In COLON (list_ascii_of_string "when")).
  { cbn. intros [H | [H | [H | [H | []]]]]; discriminate H. }
  split; [exact Hk |].
  exact (record_error_first_colon ∅ "when" " 12:30 is taken" Hk).
Defined.

(** The widget failure of the specification: two children keyed ["f1"] and
    ["f2"]. *)
Example widget_two_children :
  errors_after Demo.demo Demo.index
    (Tw2ValidationError
       (Tw2 "" PyNone (PyDict ∅)
          [Tw2 "f1" (PyStr "m1") PyNone []; Tw2 "f2" (PyStr "m2") PyNone []]))
    Demo.fresh_world
  = <["f1" := PyStr "m1"]> (<["f2" := PyStr "m2"]> ∅).
Proof. reflexivity. Qed.

(** ** The renderer, further *)

(** The content-type defaulting touches the ['Content-Type'] header only. *)
Lemma default_content_type_frame (engine_content_type : option string) (resp : Response) :
  status (default_content_type engine_content_type resp) = status resp
  /\ forall k, k <> "Content-Type" ->
       headers (default_content_type engine_content_type resp) !! k = headers resp !! k.
Proof.
  unfold default_content_type.
  destruct (content_type resp); [now split |].
  destruct engine_content_type as [ct|]; [| now split].
  match goal with |- context [if ?b then _ else _] => destruct b end;
    (split; [reflexivity |]); intros k Hk; cbn;
    now rewrite ?lookup_insert_ne by congruence.
Qed.

Section RendererFurther.

Variable tg : Collaborators.

(** X9. The renderer never overrides a content type: when the response
    already has one, or when the engine lookup suggests none, the response
    comes out of the renderer as it went in. *)
Theorem render_response_keeps_content_type (controller : callable) (output : pyobj)
    (w : world) :
  content_type (response w) <> None
  \/ (lookup_template_engine (decoration_of tg controller) w).1.1.1.1 = None ->
  response (_render_response tg controller output w).2 = response w.
Proof.
  intros Hkeep. rewrite render_response_response. unfold default_content_type.
  destruct (content_type (response w)) as [set|]; [reflexivity |].
  destruct Hkeep as [Hset | ->]; [congruence | reflexivity].
Qed.

(** X10. A suggested content type that already mentions a charset, or that
    is neither textual nor one of the XML, XHTML and JSON types, is set as it
    is: no charset is appended, and none is appended twice. *)
Theorem render_response_verbatim (controller : callable) (output : pyobj) (w : world)
    (ct : string) (engine_name template_name : option string)
    (exclude_names : list string) (render_params : params) :
  content_type (response w) = None ->
  lookup_template_engine (decoration_of tg controller) w
  = (Some ct, engine_name, template_name, exclude_names, render_params) ->
  Str.contains "charset" ct = true
  \/ (Str.startswith "text" ct = false /\ ~ In ct charset_types) ->
  headers (response (_render_response tg controller output w).2) !! "Content-Type"
  = Some ct.
Proof.
  intros Hnone Hlookup Hkind. rewrite render_response_response, Hlookup. cbn [fst].
  unfold default_content_type. rewrite Hnone.
  cbn [set_header headers]. rewrite lookup_insert_eq.
  cbn [default from_option]. unfold id.
  assert (negb (Str.contains "charset" ct)
          && (Str.startswith "text" ct || Str.in_tuple ct charset_types) = false) as ->.
  { destruct Hkind as [-> | [-> Hnot]]; [reflexivity |].
    apply andb_false_iff. right. cbn [orb].
    unfold Str.in_tuple. apply not_true_is_false. intros Hex.
    apply existsb_exists in Hex as (x & Hin & Heq).
    apply String.eqb_eq in Heq. subst x. now apply Hnot. }
  apply lookup_insert_eq.
Qed.

(** X11. On a test request, rendering a mapping adds five entries to the
    testing variables of the harness and keeps the others: the namespace,
    the template name, the exclude-list, the render parameters and the
    controller output.  The controller output it shows is the mapping after
    the excluded keys were removed, the same as the namespace: the removal is
    done on the returned mapping itself. *)
Theorem render_response_testing_variables (controller : callable) (d : params)
    (w : world) (x : pyobj) (tv : gmap string pyobj)
    (ct engine_name template_name : option string)
    (exclude_names : list string) (render_params : params) :
  lookup_template_engine (decoration_of tg controller) w
  = (ct, engine_name, template_name, exclude_names, render_params) ->
  environ w !! "paste.testing" = Some x ->
  environ w !! "paste.testing_variables" = Some (PyDict tv) ->
  let namespace := without_keys exclude_names d in
  let w' := (_render_response tg controller (PyDict d) w).2 in
  exists tv',
    environ w' !! "paste.testing_variables" = Some (PyDict tv')
    /\ tv' !! "namespace" = Some (PyDict namespace)
    /\ tv' !! "controller_output" = Some (PyDict namespace)
    /\ tv' !! "template_name" = Some (py_opt_str template_name)
    /\ tv' !! "exclude_names" = Some (PyList (map PyStr exclude_names))
    /\ tv' !! "render_params" = Some (PyDict render_params)
    /\ (forall k, ~ In k ["namespace"; "template_name"; "exclude_names";
                          "render_params"; "controller_output"] ->
        tv' !! k = tv !! k)
    /\ (forall k, k <> "paste.testing_variables" -> environ w' !! k = environ w !! k).
Proof.
  intros Hlookup Htesting Hvars namespace w'. subst namespace w'.
  unfold _render_response, expose_testing_variables. unfold_M. cbn.
  rewrite Hlookup. cbn. rewrite Htesting, Hvars. cbn.
  rewrite pop_all_without_keys, lookup_insert_eq.
  eexists. split; [reflexivity |].
  repeat split; try (now simplify_map_eq).
  - intros k Hk. cbn in Hk.
    rewrite !lookup_insert_ne; [reflexivity | | | | |]; intros <-; apply Hk; tauto.
  - intros k Hk. now rewrite lookup_insert_ne by congruence.
Qed.

(** X12. A test request that lacks the testing variables fails in the
    renderer with a [KeyError] once the returned mapping is to be shown to
    the harness: the template renderer is not called, and the content type
    has been defaulted all the same. *)
Theorem render_response_missing_testing_variables (controller : callable) (d : params)
    (w : world) (x : pyobj) :
  environ w !! "paste.testing" = Some x ->
  environ w !! "paste.testing_variables" = None ->
  let run := _render_response tg controller (PyDict d) w in
  run.1 = Raises (OtherException "KeyError")
  /\ log run.2 = log w
  /\ response run.2
     = default_content_type
         (lookup_template_engine (decoration_of tg controller) w).1.1.1.1 (response w).
Proof.
  intros Htesting Hvars run. subst run.
  split; [| split; [| apply render_response_response]];
    unfold _render_response, expose_testing_variables; unfold_M; cbn;
    destruct (lookup_template_engine _ w) as [[[[ct en] tn] ex] rp]; cbn;
    now rewrite Htesting, Hvars.
Qed.

(** X13. Of the response the renderer changes at most the ['Content-Type']
    header: the status and the other headers stay; and it leaves the
    validation status and [args_params] alone. *)
Theorem render_response_frame (controller : callable) (output : pyobj) (w : world) :
  let w' := (_render_response tg controller output w).2 in
  status (response w') = status (response w)
  /\ (forall k, k <> "Content-Type" ->
      headers (response w') !! k = headers (response w) !! k)
  /\ validation w' = validation w
  /\ args_params w' = args_params w.
Proof.
  cbv zeta. rewrite render_response_response.
  destruct (default_content_type_frame
              (lookup_template_engine (decoration_of tg controller) w).1.1.1.1
              (response w)) as [Hstatus Hheaders].
  repeat split; auto.
  - now apply (preserves_render_response validation tg).
  - now apply (preserves_render_response args_params tg).
Qed.

End RendererFurther.

Lemma render_response_keeps_content_type_witness :
  content_type (response Shop.typed_world) = Some "text/csv"
  /\ headers (response (_render_response Shop.shop Shop.browse (PyDict xy)
                          Shop.typed_world).2) !! "Content-Type"
     = Some "text/csv".
Proof.
  split; [reflexivity |].
  rewrite (render_response_keeps_content_type Shop.shop Shop.browse (PyDict xy)
             Shop.typed_world); [reflexivity |].
  left. discriminate.
Defined.

Lemma render_response_verbatim_witness :
  content_type (response Demo.fresh_world) = None
  /\ headers (response (_render_response Shop.shop Shop.browse (PyDict xy)
                          Demo.fresh_world).2) !! "Content-Type"
     = Some "image/png".
Proof.
  split; [reflexivity |].
  apply (render_response_verbatim Shop.shop Shop.browse (PyDict xy) Demo.fresh_world
           "image/png" (Some "chart") (Some "shop.templates.chart") ["secret"] ∅);
    [reflexivity | reflexivity |].
  right. split; [reflexivity |]. cbn. intros [H | [H | [H | []]]]; discriminate H.
Defined.

Lemma render_response_testing_variables_witness :
  environ Shop.test_world !! "paste.testing" = Some (PyInt 1)
  /\ exists tv',
      environ (_render_response Shop.shop Shop.browse
                 (PyDict (<["secret" := PyInt 9]> xy)) Shop.test_world).2
        !! "paste.testing_variables" = Some (PyDict tv')
      /\ tv' !! "controller_output" = Some (PyDict xy)
      /\ tv' !! "seen" = Some (PyInt 3).
Proof.
  split; [reflexivity |].
  destruct (render_response_testing_variables Shop.shop Shop.browse
              (<["secret" := PyInt 9]> xy) Shop.test_world (PyInt 1)
              (<["seen" := PyInt 3]> ∅)
              (Some "image/png") (Some "chart") (Some "shop.templates.chart")
              ["secret"] ∅ eq_refl eq_refl eq_refl)
    as (tv' & Henv & _ & Hout & _ & _ & _ & Hkeep & _).
  exists tv'. split; [exact Henv | split].
  - rewrite Hout. do 2 apply f_equal. rewrite <- pop_all_without_keys. reflexivity.
  - rewrite Hkeep; [reflexivity |].
    cbn. intros [H | [H | [H | [H | [H | []]]]]]; discriminate H.
Defined.

Lemma render_response_missing_testing_variables_witness :
  environ Shop.broken_test_world !! "paste.testing" = Some (PyInt 1)
  /\ environ Shop.broken_test_world !! "paste.testing_variables" = None
  /\ (_render_response Shop.shop Shop.browse (PyDict xy) Shop.broken_test_world).1
     = Raises (OtherException "KeyError").
Proof.
  split; [reflexivity | split; [reflexivity |]].
  apply (render_response_missing_testing_variables Shop.shop Shop.browse xy
           Shop.broken_test_world (PyInt 1)); reflexivity.
Defined.

(** ** Hook sequences *)

Lemma hook_names_app (l1 l2 : list event) :
  hook_names (l1 ++ l2) = hook_names l1 ++ hook_names l2.
Proof. apply omap_app. Qed.

Lemma hook_names_not_notify (evs : list event) :
  Forall not_notify evs -> hook_names evs = [].
Proof.
  induction 1 as [|e evs He _ IH]; [reflexivity |].
  destruct e; cbn in *; try exact IH. contradiction.
Qed.

Lemma notifies_of_appends {A} (m : M A) : appends not_notify m -> notifies [] m.
Proof.
  intros Hm w. destruct (Hm w) as (evs & Hlog & Hevs). exists [].
  rewrite Hlog, hook_names_app, (hook_names_not_notify evs Hevs).
  repeat split; auto.
Qed.

Lemma notifies_emit (hook : string) (args : hook_args) (controller : callable) :
  notifies [hook] (emit (Notify hook args controller)).
Proof.
  intros w. exists [hook]. cbn. rewrite hook_names_app. repeat split; auto.
Qed.

Lemma notifies_bind {A B} (n1 n2 : list string) (m : M A) (k : A -> M B) :
  notifies n1 m -> (forall a, notifies n2 (k a)) -> notifies (n1 ++ n2) (m ≫= k).
Proof.
  intros Hm Hk w. rewrite bind_run.
  destruct (Hm w) as (done1 & Hlog1 & Hpre1 & Hret1).
  destruct (m w) as [[a|e|] w1]; cbn in *.
  - destruct (Hk a w1) as (done2 & Hlog2 & Hpre2 & Hret2).
    rewrite (Hret1 a eq_refl) in Hlog1. exists (n1 ++ done2).
    split; [now rewrite Hlog2, Hlog1, app_assoc |].
    split; [now apply prefix_app |]. intros b Hb. f_equal. eauto.
  - exists done1. split; [exact Hlog1 |].
    split; [now apply prefix_app_r | discriminate].
  - exists done1. split; [exact Hlog1 |].
    split; [now apply prefix_app_r | discriminate].
Qed.

Section DispatchFurther.

Variable tg : Collaborators.

Lemma appends_validation_phase_not_notify (fuel : nat) (action : callable) (p : params)
    (r : remainder) (validate_params : params) :
  appends not_notify (validation_phase tg fuel action p r validate_params).
Proof.
  assert (Hcheck : forall e, is_check e -> not_notify e) by (intros []; cbn; tauto).
  unfold validation_phase. apply appends_try_validation.
  - eapply appends_weaken; [exact Hcheck | apply appends_perform_validate].
  - intros inv. eapply appends_weaken; [exact Hcheck |].
    apply appends_bind; [apply appends_process_validation_errors |].
    intros [[i h] c]. apply appends_bind; [apply appends_chain_loop |].
    intros [[i' h'] q]. apply appends_mret.
  - intros q. apply appends_bind; [now apply appends_modify |]. intros _.
    apply appends_bind; [now apply appends_emit |]. intros _.
    destruct (flatten_arguments tg action q r). apply appends_mret.
Qed.

Lemma appends_render_response_not_notify (controller : callable) (output : pyobj) :
  appends not_notify (_render_response tg controller output).
Proof.
  intros w. unfold _render_response, expose_testing_variables. unfold_M. cbn.
  destruct (lookup_template_engine (decoration_of tg controller) w)
    as [[[[ct en] tn] ex] rp].
  destruct output as [| | | |d]; cbn;
    try (exists []; rewrite app_nil_r; split; [reflexivity | constructor]).
  destruct (environ w !! "paste.testing"); cbn.
  - destruct (environ w !! "paste.testing_variables") as [[]|]; cbn;
      try (exists []; rewrite app_nil_r; split; [reflexivity | constructor]).
    eexists. split; [reflexivity |]. now repeat constructor.
  - eexists. split; [reflexivity |]. now repeat constructor.
Qed.

Lemma notifies_invoke_and_render (action : callable) (b : bound_callable)
    (r : remainder) (p : params) :
  notifies ["before_call"; "before_render"; "after_render"]
    (invoke_and_render tg action b r p).
Proof.
  unfold invoke_and_render.
  apply (notifies_bind ["before_call"] ["before_render"; "after_render"]);
    [apply notifies_emit |]. intros _.
  apply (notifies_bind [] ["before_render"; "after_render"]).
  { apply notifies_of_appends. intros w. exists [ControllerCaller b r p].
    rewrite log_call_controller. split; [reflexivity | now repeat constructor]. }
  intros output.
  apply (notifies_bind ["before_render"] ["after_render"]); [apply notifies_emit |].
  intros _. apply (notifies_bind [] ["after_render"]).
  { apply notifies_of_appends, appends_render_response_not_notify. }
  intros response.
  apply (notifies_bind ["after_render"] []); [apply notifies_emit |]. intros _.
  apply notifies_of_appends, appends_mret.
Qed.

(** X14. In every dispatch the hooks are notified in the order
    [before_validate], [before_call], [before_render], [after_render], each
    at most once and none out of turn; [before_validate] is notified in every
    dispatch, and all four are when the dispatch returns. *)
Theorem call_hook_order (fuel : nat) (action : callable) (p : params)
    (r : option remainder) (w : world) :
  exists later,
    hook_names (log (_call tg fuel action p r w).2)
    = hook_names (log w) ++ "before_validate" :: later
    /\ later `prefix_of` ["before_call"; "before_render"; "after_render"]
    /\ (forall body, (_call tg fuel action p r w).1 = Returns body ->
        later = ["before_call"; "before_render"; "after_render"]).
Proof.
  rewrite call_phases. cbv zeta.
  match goal with |- context [(?m ≫= ?k) _] =>
    assert (Hrest : notifies ([] ++ ["before_call"; "before_render"; "after_render"])
                      (m ≫= k)) end.
  { apply notifies_bind.
    - apply notifies_of_appends, appends_validation_phase_not_notify.
    - intros [[[a b] r2] p2]. apply notifies_invoke_and_render. }
  destruct (Hrest (validation_world tg action p r w)) as (later & Hlog & Hpre & Hret).
  exists later. split; [| split; [exact Hpre | exact Hret]].
  rewrite Hlog, log_validation_world, !hook_names_app. cbn.
  now rewrite <- app_assoc.
Qed.

End DispatchFurther.

(** ** The orchestrator, further *)

Section DispatchPaths.

Variable tg : Collaborators.

(** The dispatch after a validation that passed. *)
Lemma call_after_validation_passes (fuel : nat) (action : callable) (p : params)
    (r : option remainder) (w : world) (validated : params) (w1 : world) :
  let r' := map (url2pathname tg) (default [] r) in
  let validate_params := get_params_with_argspec tg action p r' in
  _perform_validate tg action validate_params (validation_world tg action p r w)
  = (Returns validated, w1) ->
  let args := flatten_arguments tg action validated r' in
  _call tg fuel action p r w
  = invoke_and_render tg action (Action action) args.1 args.2
      (invocation_world action validated r' w1).
Proof.
  intros r' validate_params Hpasses args. subst args.
  rewrite call_phases. cbv zeta. fold r'. fold validate_params.
  rewrite bind_run. unfold validation_phase, try_validation. rewrite Hpasses.
  rewrite !bind_run. cbn [modify emit].
  destruct (flatten_arguments tg action validated r') as [r2 p2]. reflexivity.
Qed.

(** The dispatch after a validation that failed. *)
Lemma call_after_validation_fails (fuel : nat) (action : callable) (p : params)
    (r : option remainder) (w w1 w2 : world) (inv : validation_error)
    (instance : option string) (handler : callable) (chain : bool) :
  let r' := map (url2pathname tg) (default [] r) in
  let validate_params := get_params_with_argspec tg action p r' in
  _perform_validate tg action validate_params (validation_world tg action p r w)
  = (Raises (ValidationExn inv), w1) ->
  _process_validation_errors tg action r' p inv w1
  = (Returns (instance, handler, chain), w2) ->
  _call tg fuel action p r w
  = ('(i, h, q) ← chain_loop tg fuel validate_params r' instance handler chain p;
     invoke_and_render tg h (Partial h i) r' q) w2.
Proof.
  intros r' validate_params Hfails Hclassified.
  rewrite call_phases. cbv zeta. fold r'. fold validate_params.
  rewrite !bind_run. unfold validation_phase, try_validation. rewrite Hfails.
  rewrite bind_run, Hclassified, bind_run.
  destruct (chain_loop tg fuel _ _ _ _ _ _ _) as [[[[i h] q]|e|] w3]; reflexivity.
Qed.

Lemma process_validation_errors_instance (controller : callable) (r : remainder)
    (p : params) (inv : validation_error) (w w2 : world)
    (instance : option string) (handler : callable) (chain : bool) :
  _process_validation_errors tg controller r p inv w
  = (Returns (instance, handler, chain), w2) ->
  instance = im_self controller /\ log w2 = log w.
Proof.
  intros Hrun.
  pose proof (process_validation_errors_world tg controller r p inv w) as Hworld.
  rewrite Hrun in Hworld. cbn in Hworld. subst w2. split; [| reflexivity].
  unfold _process_validation_errors in Hrun. unfold_M. cbn in Hrun.
  destruct (error_handler _); now injection Hrun as <- _.
Qed.

(** X15. When the validation of the action passes, the action itself is
    what the controller caller gets, with the remainder and parameters that
    [flatten_arguments] makes of the validated parameters; the validated
    parameters are stored as the values of the validation status, and stay
    there to the end of the dispatch. *)
Theorem call_validation_passes (fuel : nat) (action : callable) (p : params)
    (r : option remainder) (w : world) (validated : params) (w1 : world) :
  let r' := map (url2pathname tg) (default [] r) in
  let validate_params := get_params_with_argspec tg action p r' in
  _perform_validate tg action validate_params (validation_world tg action p r w)
  = (Returns validated, w1) ->
  let args := flatten_arguments tg action validated r' in
  validation (_call tg fuel action p r w).2
  = set_values (PyDict validated) (validation w1)
  /\ exists evs,
      log (_call tg fuel action p r w).2
      = log w1 ++ [FlattenArguments action validated r';
                   Notify "before_call" (ArgsParams args.1 args.2) action;
                   ControllerCaller (Action action) args.1 args.2] ++ evs.
Proof.
  intros r' validate_params Hpasses args.
  rewrite (call_after_validation_passes fuel action p r w validated w1 Hpasses).
  fold r'. fold args. split.
  - now rewrite (preserves_invoke_and_render validation tg).
  - destruct (log_invoke_and_render tg action (Action action) args.1 args.2
                (invocation_world action validated r' w1)) as (evs & Hlog).
    exists evs. rewrite Hlog. cbn. now rewrite <- !app_assoc.
Qed.

(** X16. When the validation of the action fails and the classifier asks
    for no chained validation, the dispatch goes straight on to invoke the
    error handler, bound to the instance of the action: the handler gets the
    decoded remainder and the keyword parameters of the request as they came
    in, neither merged, validated nor flattened, and the hooks from
    [before_call] on are notified for the handler. *)
Theorem call_validation_fails_unchained (fuel : nat) (action : callable) (p : params)
    (r : option remainder) (w w1 w2 : world) (inv : validation_error)
    (instance : option string) (handler : callable) :
  let r' := map (url2pathname tg) (default [] r) in
  let validate_params := get_params_with_argspec tg action p r' in
  _perform_validate tg action validate_params (validation_world tg action p r w)
  = (Raises (ValidationExn inv), w1) ->
  _process_validation_errors tg action r' p inv w1
  = (Returns (instance, handler, false), w2) ->
  _call tg fuel action p r w
  = invoke_and_render tg handler (Partial handler instance) r' p w2
  /\ instance = im_self action
  /\ exists evs,
      log (_call tg fuel action p r w).2
      = log w1 ++ [Notify "before_call" (ArgsParams r' p) handler;
                   ControllerCaller (Partial handler instance) r' p] ++ evs.
Proof.
  intros r' validate_params Hfails Hclassified.
  assert (Hcall : _call tg fuel action p r w
                  = invoke_and_render tg handler (Partial handler instance) r' p w2).
  { rewrite (call_after_validation_fails fuel action p r w w1 w2 inv instance handler
               false Hfails Hclassified).
    fold r'. fold validate_params. now rewrite bind_run, chain_loop_done. }
  destruct (process_validation_errors_instance action r' p inv w1 w2 instance handler
              false Hclassified) as [Hinstance Hlog2].
  split; [exact Hcall | split; [exact Hinstance |]].
  destruct (log_invoke_and_render tg handler (Partial handler instance) r' p w2)
    as (evs & Hlog).
  exists evs. now rewrite Hcall, Hlog, Hlog2.
Qed.

(** X17. When the validation of the action fails, the handler asks for
    chained validation and the validation of the handler passes at once, the
    handler is invoked with what its own validation made of the parameters
    merged for the action. *)
Theorem call_chained_validation_passes (n : nat) (action : callable) (p : params)
    (r : option remainder) (w w1 w2 w3 : world) (inv : validation_error)
    (instance : option string) (handler : callable) (validated : params) :
  let r' := map (url2pathname tg) (default [] r) in
  let validate_params := get_params_with_argspec tg action p r' in
  _perform_validate tg action validate_params (validation_world tg action p r w)
  = (Raises (ValidationExn inv), w1) ->
  _process_validation_errors tg action r' p inv w1
  = (Returns (instance, handler, true), w2) ->
  _perform_validate tg handler validate_params w2 = (Returns validated, w3) ->
  _call tg (S n) action p r w
  = invoke_and_render tg handler (Partial handler instance) r' validated w3.
Proof.
  intros r' validate_params Hfails Hclassified Hpasses.
  rewrite (call_after_validation_fails (S n) action p r w w1 w2 inv instance handler
             true Hfails Hclassified).
  fold r'. fold validate_params.
  rewrite bind_run, chain_loop_pass. unfold try_validation. now rewrite Hpasses.
Qed.

(** X18. An exception of the validation that is not a validation failure
    ends the dispatch: it comes out of [_call] as it was raised, and neither
    the classifier, the [before_call] hook nor the controller is reached. *)
Theorem call_validation_raises_other (fuel : nat) (action : callable) (p : params)
    (r : option remainder) (w w1 : world) (e : exn) :
  let r' := map (url2pathname tg) (default [] r) in
  let validate_params := get_params_with_argspec tg action p r' in
  (forall inv, e <> ValidationExn inv) ->
  _perform_validate tg action validate_params (validation_world tg action p r w)
  = (Raises e, w1) ->
  _call tg fuel action p r w = (Raises e, w1).
Proof.
  intros r' validate_params Hother Hraises.
  rewrite call_phases. cbv zeta. fold r'. fold validate_params.
  rewrite bind_run. unfold validation_phase, try_validation. rewrite Hraises.
  destruct e as [inv| | |]; try reflexivity. now destruct (Hother inv).
Qed.

(** X19. An exception raised by the controller caller, a validation
    failure included, is not handled: after a validation that passed it comes
    out of [_call] as it was raised, with the response as the controller left
    it, and nothing is notified or rendered after the call. *)
Theorem call_controller_raises (fuel : nat) (action : callable) (p : params)
    (r : option remainder) (w : world) (validated : params) (w1 : world)
    (e : exn) (resp : Response) :
  let r' := map (url2pathname tg) (default [] r) in
  let validate_params := get_params_with_argspec tg action p r' in
  _perform_validate tg action validate_params (validation_world tg action p r w)
  = (Returns validated, w1) ->
  let args := flatten_arguments tg action validated r' in
  controller_caller (decoration_of tg action) (Action action) args.1 args.2 (response w1)
  = (Raises e, resp) ->
  (_call tg fuel action p r w).1 = Raises e
  /\ response (_call tg fuel action p r w).2 = resp
  /\ log (_call tg fuel action p r w).2
     = log w1 ++ [FlattenArguments action validated r';
                  Notify "before_call" (ArgsParams args.1 args.2) action;
                  ControllerCaller (Action action) args.1 args.2].
Proof.
  intros r' validate_params Hpasses args Hraises.
  rewrite (call_after_validation_passes fuel action p r w validated w1 Hpasses).
  fold r'. fold args.
  unfold invoke_and_render. rewrite bind_run. cbn [emit modify]. rewrite bind_run.
  unfold call_controller. cbn [emit modify snd]. cbn [logged response invocation_world
    with_validation]. rewrite Hraises. cbn. now rewrite <- !app_assoc.
Qed.

(** X20. A dispatch starts from a fresh validation status: what the status
    held when [_call] was entered has no effect on the dispatch.  For a
    method without validations the status at the end of the dispatch has no
    errors, no exception, no handler, and the merged parameters as values. *)
Theorem call_resets_validation (fuel : nat) (action : callable) (p : params)
    (r : option remainder) (w : world) :
  (forall g, _call tg fuel action p r (with_validation g w) = _call tg fuel action p r w)
  /\ (validations (decoration_of tg action) = [] ->
      validation (_call tg fuel action p r w).2
      = set_values
          (PyDict (get_params_with_argspec tg action p
                     (map (url2pathname tg) (default [] r))))
          new_ValidationStatus).
Proof.
  split; [reflexivity |]. intros Hnone.
  assert (Hpasses : _perform_validate tg action
            (get_params_with_argspec tg action p (map (url2pathname tg) (default [] r)))
            (validation_world tg action p r w)
          = (Returns (get_params_with_argspec tg action p
                        (map (url2pathname tg) (default [] r))),
             validation_world tg action p r w)).
  { unfold _perform_validate. now rewrite Hnone. }
  rewrite (call_after_validation_passes fuel action p r w _ _ Hpasses).
  now rewrite (preserves_invoke_and_render validation tg).
Qed.

(** The steps of the dispatch after the merge leave [args_params] alone. *)
Lemma call_args_params (fuel : nat) (action : callable) (p : params)
    (r : option remainder) (w : world) :
  args_params (_call tg fuel action p r w).2
  = get_params_with_argspec tg action p (map (url2pathname tg) (default [] r)).
Proof.
  rewrite call_phases. cbv zeta.
  match goal with |- context [(?m ≫= ?k) _] =>
    assert (Hkeep : preserves args_params (m ≫= k)) end.
  { apply preserves_bind; [now apply preserves_validation_phase |].
    intros [[[a b] r2] p2]. now apply preserves_invoke_and_render. }
  now rewrite Hkeep.
Qed.

(** X21. An empty ['Content-Type'] header is removed before the validation
    starts: the response that the validation, and after it the controller,
    find has no blank content type.  A header that is not empty, every other
    header and the status are kept. *)
Theorem call_drops_blank_content_type (action : callable) (p : params)
    (r : option remainder) (w : world) :
  let w1 := validation_world tg action p r w in
  headers (response w1) !! "Content-Type" <> Some EmptyString
  /\ (forall h, h <> EmptyString -> headers (response w) !! "Content-Type" = Some h ->
      response w1 = response w)
  /\ (forall k, k <> "Content-Type" ->
      headers (response w1) !! k = headers (response w) !! k)
  /\ status (response w1) = status (response w).
Proof.
  cbv zeta.
  cbn [validation_world with_args_params logged with_response with_validation response].
  unfold drop_empty_content_type.
  destruct (headers (response w) !! "Content-Type") as [[|c h]|] eqn:Hct;
    cbn [headers status]; (split; [| split; [| split; [| reflexivity]]]).
  - rewrite lookup_delete_eq. discriminate.
  - intros h Hne Hh. congruence.
  - intros k Hk. now rewrite lookup_delete_ne by congruence.
  - rewrite Hct. discriminate.
  - reflexivity.
  - reflexivity.
  - rewrite lookup_delete_eq. discriminate.
  - intros h Hne Hh. discriminate Hh.
  - intros k Hk. now rewrite lookup_delete_ne by congruence.
Qed.

End DispatchPaths.

(** ** Chained validation without end *)

Section SelfChaining.

Variable tg : Collaborators.

(** The classifier hands back the handler that the status names. *)
Lemma process_validation_errors_selected (controller : callable) (r : remainder)
    (p : params) (inv : validation_error) (w : world) (handler : callable) :
  error_handler (validation w) = Some handler ->
  (_process_validation_errors tg controller r p inv w).1
  = Returns (im_self controller, handler, chain_validation (validation w)).
Proof.
  intros Hset. unfold _process_validation_errors. unfold_M. cbn.
  destruct (populate_status_error_handler tg inv (set_exception inv (validation w)))
    as [-> ->]. cbn. now rewrite Hset.
Qed.

Lemma chain_loop_self_chaining (handler : callable) (validate_params : params) :
  (forall w, exists inv w1,
      _perform_validate tg handler validate_params w = (Raises (ValidationExn inv), w1)
      /\ error_handler (validation w1) = Some handler
      /\ chain_validation (validation w1) = true) ->
  forall fuel r i q w,
    (chain_loop tg fuel validate_params r i handler true q w).1 = OutOfFuel.
Proof.
  intros Hrejects fuel r. induction fuel as [|fuel IH]; intros i q w; [reflexivity |].
  rewrite chain_loop_pass. unfold try_validation.
  destruct (Hrejects w) as (inv & w1 & -> & Hhandler & Hchain).
  rewrite bind_run.
  pose proof (process_validation_errors_selected handler r q inv w1 handler Hhandler)
    as Hselected.
  rewrite Hchain in Hselected.
  destruct (_process_validation_errors tg handler r q inv w1) as [res w2].
  cbn in Hselected. subst res. apply IH.
Qed.

(** X22. The chained-validation loop has no guard of its own: when the
    error handler that a failed validation selects, with chaining, is one
    whose own validation always fails and selects that handler again with
    chaining, the dispatch never comes to an end, however many passes it is
    given. *)
Theorem call_self_chaining_diverges (action : callable) (p : params)
    (r : option remainder) (w w1 w2 : world) (inv : validation_error)
    (instance : option string) (handler : callable) :
  let r' := map (url2pathname tg) (default [] r) in
  let validate_params := get_params_with_argspec tg action p r' in
  (forall w, exists inv w1,
      _perform_validate tg handler validate_params w = (Raises (ValidationExn inv), w1)
      /\ error_handler (validation w1) = Some handler
      /\ chain_validation (validation w1) = true) ->
  _perform_validate tg action validate_params (validation_world tg action p r w)
  = (Raises (ValidationExn inv), w1) ->
  _process_validation_errors tg action r' p inv w1
  = (Returns (instance, handler, true), w2) ->
  forall fuel, (_call tg fuel action p r w).1 = OutOfFuel.
Proof.
  intros r' validate_params Hrejects Hfails Hclassified fuel.
  rewrite (call_after_validation_fails tg fuel action p r w w1 w2 inv instance handler
             true Hfails Hclassified).
  fold r'. fold validate_params. rewrite bind_run.
  pose proof (chain_loop_self_chaining handler validate_params Hrejects fuel r' instance
                p w2) as Hloop.
  destruct (chain_loop tg fuel validate_params r' instance handler true p w2)
    as [[res|e|] w3]; cbn in Hloop; try discriminate Hloop.
  reflexivity.
Qed.

End SelfChaining.

(** ** The security checker, further *)

Section SecurityFurther.

Variable tg : Collaborators.

(** X23. A bare predicate that fails never lets the request through:
    whatever the [_failed_authorization] hook of the controller does, and
    whether there is one, [_check_security] does not return. *)
Theorem check_security_never_lets_through (self : controller_instance)
    (check_authorization : M unit) (reason : string) (w w1 : world) :
  allow_only self = Some (Predicate check_authorization) ->
  check_authorization w = (Raises (NotAuthorizedError reason), w1) ->
  forall result, (_check_security tg self w).1 <> Returns result.
Proof.
  intros Hallow Hfails result.
  unfold _check_security. rewrite Hallow. unfold try_not_authorized.
  rewrite bind_run, Hfails. rewrite bind_run.
  destruct (_failed_authorization self) as [hook|].
  - rewrite bind_run. cbn [emit modify].
    destruct (hook reason _) as [[[]|e|] w2]; cbn; try discriminate.
    rewrite bind_run. cbn [get].
    destruct (not_anonymous_is_met tg (environ w2)); cbn; discriminate.
  - cbn [mret M_ret]. rewrite bind_run. cbn [get].
    destruct (not_anonymous_is_met tg (environ w1)); cbn; discriminate.
Qed.

End SecurityFurther.

(** ** The further properties, run *)

Lemma call_hook_order_witness :
  (_call Demo.demo 3 Demo.index ∅ None Demo.fresh_world).1 = Returns (PyStr "rendered")
  /\ hook_names (log (_call Demo.demo 3 Demo.index ∅ None Demo.fresh_world).2)
     = ["before_validate"; "before_call"; "before_render"; "after_render"].
Proof.
  split; [reflexivity |].
  destruct (call_hook_order Demo.demo 3 Demo.index ∅ None Demo.fresh_world)
    as (later & Hlog & _ & Hret).
  rewrite Hlog. now rewrite (Hret (PyStr "rendered") eq_refl).
Defined.

Lemma call_validation_passes_witness :
  _perform_validate Shop.shop Shop.browse browse_merged
    (validation_world Shop.shop Shop.browse browse_q (Some ["7"]) Demo.fresh_world)
  = (Returns browse_merged,
     validation_world Shop.shop Shop.browse browse_q (Some ["7"]) Demo.fresh_world)
  /\ values (validation (_call Shop.shop 0 Shop.browse browse_q (Some ["7"])
                           Demo.fresh_world).2)
     = PyDict browse_merged.
Proof.
  split; [reflexivity |].
  destruct (call_validation_passes Shop.shop 0 Shop.browse browse_q (Some ["7"])
              Demo.fresh_world browse_merged
              (validation_world Shop.shop Shop.browse browse_q (Some ["7"])
                 Demo.fresh_world) eq_refl) as [Hstatus _].
  now rewrite Hstatus.
Defined.

Lemma call_validation_fails_unchained_witness :
  _perform_validate Shop.shop Shop.checkout browse_q checkout_w0
  = (Raises (ValidationExn checkout_inv), checkout_w1)
  /\ _process_validation_errors Shop.shop Shop.checkout [] browse_q checkout_inv
       checkout_w1
     = (Returns (Some "shop", Shop.form, false), checkout_w2)
  /\ _call Shop.shop 0 Shop.checkout browse_q None Demo.fresh_world
     = invoke_and_render Shop.shop Shop.form (Partial Shop.form (Some "shop")) []
         browse_q checkout_w2.
Proof.
  assert (H1 : _perform_validate Shop.shop Shop.checkout browse_q checkout_w0
               = (Raises (ValidationExn checkout_inv), checkout_w1)) by reflexivity.
  assert (H2 : _process_validation_errors Shop.shop Shop.checkout [] browse_q
                 checkout_inv checkout_w1
               = (Returns (Some "shop", Shop.form, false), checkout_w2)) by reflexivity.
  split; [exact H1 | split; [exact H2 |]].
  exact (proj1 (call_validation_fails_unchained Shop.shop 0 Shop.checkout browse_q None
                  Demo.fresh_world checkout_w1 checkout_w2 checkout_inv (Some "shop")
                  Shop.form H1 H2)).
Defined.

Lemma call_chained_validation_passes_witness :
  _perform_validate Demo.demo Demo.on_error ∅ chained_w2
  = (Returns (<["checked" := PyStr "hv"]> ∅),
     (_perform_validate Demo.demo Demo.on_error ∅ chained_w2).2)
  /\ _call Demo.demo 1 Demo.index ∅ None Demo.fresh_world
     = invoke_and_render Demo.demo Demo.on_error (Partial Demo.on_error (Some "root")) []
         (<["checked" := PyStr "hv"]> ∅)
         (_perform_validate Demo.demo Demo.on_error ∅ chained_w2).2.
Proof.
  split; [reflexivity |].
  apply (call_chained_validation_passes Demo.demo 0 Demo.index ∅ None Demo.fresh_world
           chained_w1 chained_w2 (_perform_validate Demo.demo Demo.on_error ∅ chained_w2).2
           chained_inv (Some "root") Demo.on_error (<["checked" := PyStr "hv"]> ∅));
    reflexivity.
Defined.

Lemma call_validation_raises_other_witness :
  (forall inv, HTTPException 302 "/login" <> ValidationExn inv)
  /\ (_call Shop.shop 0 Shop.redirecting ∅ None Demo.fresh_world).1
     = Raises (HTTPException 302 "/login")
  /\ hook_names (log (_call Shop.shop 0 Shop.redirecting ∅ None Demo.fresh_world).2)
     = ["before_validate"].
Proof.
  assert (Hother : forall inv, HTTPException 302 "/login" <> ValidationExn inv)
    by discriminate.
  split; [exact Hother |].
  rewrite (call_validation_raises_other Shop.shop 0 Shop.redirecting ∅ None
             Demo.fresh_world
             (_perform_validate Shop.shop Shop.redirecting ∅
                (validation_world Shop.shop Shop.redirecting ∅ None Demo.fresh_world)).2
             (HTTPException 302 "/login") Hother eq_refl).
  split; reflexivity.
Defined.

Lemma call_controller_raises_witness :
  (_call Shop.shop 0 Shop.crashing ∅ None Demo.fresh_world).1
  = Raises (ValidationExn (Invalid "too late" None))
  /\ errors (validation (_call Shop.shop 0 Shop.crashing ∅ None Demo.fresh_world).2) = ∅.
Proof.
  split; [| reflexivity].
  apply (call_controller_raises Shop.shop 0 Shop.crashing ∅ None Demo.fresh_world ∅
           (validation_world Shop.shop Shop.crashing ∅ None Demo.fresh_world)
           (ValidationExn (Invalid "too late" None))
           (response Demo.fresh_world) eq_refl eq_refl).
Defined.

Lemma call_resets_validation_witness :
  validations (decoration_of Shop.shop Shop.browse) = []
  /\ errors (validation after_first_failure) <> ∅
  /\ errors (validation (_call Shop.shop 0 Shop.browse browse_q (Some ["7"])
                           after_first_failure).2) = ∅.
Proof.
  split; [reflexivity | split].
  - intros Hempty. apply (f_equal (fun m => m !! "age")) in Hempty.
    vm_compute in Hempty. discriminate.
  - rewrite (proj2 (call_resets_validation Shop.shop 0 Shop.browse browse_q (Some ["7"])
                      after_first_failure) eq_refl).
    reflexivity.
Defined.

Lemma call_drops_blank_content_type_witness :
  headers (response Shop.typed_world) !! "Content-Type" = Some "text/csv"
  /\ response (validation_world Shop.shop Shop.checkout browse_q None Shop.typed_world)
     = response Shop.typed_world.
Proof.
  split; [reflexivity |].
  apply (proj1 (proj2 (call_drops_blank_content_type Shop.shop Shop.checkout browse_q
                         None Shop.typed_world)) "text/csv");
    [discriminate | reflexivity].
Defined.

Lemma call_self_chaining_diverges_witness :
  (forall w, exists inv w1,
      _perform_validate Demo.demo Demo.retry ∅ w = (Raises (ValidationExn inv), w1)
      /\ error_handler (validation w1) = Some Demo.retry
      /\ chain_validation (validation w1) = true)
  /\ forall fuel, (_call Demo.demo fuel Demo.retry ∅ None Demo.fresh_world).1 = OutOfFuel.
Proof.
  assert (Hrejects : forall w, exists inv w1,
      _perform_validate Demo.demo Demo.retry ∅ w = (Raises (ValidationExn inv), w1)
      /\ error_handler (validation w1) = Some Demo.retry
      /\ chain_validation (validation w1) = true).
  { intros w. eexists. eexists. split; [reflexivity | split; reflexivity]. }
  split; [exact Hrejects |].
  apply (call_self_chaining_diverges Demo.demo Demo.retry ∅ None Demo.fresh_world
           (_perform_validate Demo.demo Demo.retry ∅
              (validation_world Demo.demo Demo.retry ∅ None Demo.fresh_world)).2
           (_process_validation_errors Demo.demo Demo.retry [] ∅ (Invalid "again" None)
              (_perform_validate Demo.demo Demo.retry ∅
                 (validation_world Demo.demo Demo.retry ∅ None Demo.fresh_world)).2).2
           (Invalid "again" None) None Demo.retry Hrejects eq_refl eq_refl).
Defined.

Lemma check_security_never_lets_through_witness :
  allow_only guarded_redirecting = Some (Predicate members_only)
  /\ forall result,
      (_check_security Demo.demo guarded_redirecting Demo.fresh_world).1 <> Returns result.
Proof.
  split; [reflexivity |].
  apply (check_security_never_lets_through Demo.demo guarded_redirecting members_only
           "members only" Demo.fresh_world Demo.fresh_world); reflexivity.
Defined.

Section InvocationFurther.

Variable tg : Collaborators.



End InvocationFurther.


Lemma text_failure_never_empty_witness :
  errors_after Demo.demo Demo.index (Invalid EmptyString None) Demo.fresh_world <> ∅.
Proof.
  exact (proj1 (text_failure_never_empty Demo.demo Demo.index EmptyString None
                  Demo.fresh_world)).
Defined.

Lemma render_response_frame_witness :
  headers (response (_render_response Shop.shop Shop.browse (PyDict xy)
                       Shop.typed_world).2) !! "X-Served-By"
  = headers (response Shop.typed_world) !! "X-Served-By".
Proof.
  apply (proj1 (proj2 (render_response_frame Shop.shop Shop.browse (PyDict xy)
                         Shop.typed_world))).
  discriminate.
Defined.
